(** * Batched dense kernels of kokkos-kernels: host-level GEMM dispatch and
      the TeamVector GEMV front end.

    Shallow embedding of

    - [BatchedGemmWrapperInner::run] and the tile-size / threshold helpers of
      [batched/dense/impl/KokkosBatched_HostLevel_Gemm_Impl.hpp];
    - the four [TeamVectorGemv] specialisations of
      [src/batched/dense/impl/KokkosBatched_Gemv_TeamVector_Impl.hpp].

    The computational kernels themselves ([BatchedSerialGemm],
    [BatchedDblBufGemm], [BatchedArmplGemm], [TeamVectorGemvInternal]) are
    only declared in these files; they are taken as parameters of the
    development and every theorem holds for all of them. *)

From Stdlib Require Import ZArith NArith List String Ascii Bool Lia.
From Stdlib Require Import DecimalString.
Import ListNotations.

Local Open Scope string_scope.
Local Open Scope list_scope.

(* ===================================================================== *)
(** ** Tags of [KokkosBatched_Util.hpp] used by the two files            *)
(* ===================================================================== *)

Module Trans.
Inductive t := NoTranspose | Transpose | ConjTranspose.
End Trans.

Module BatchLayout.
Inductive t := Left | Right.
End BatchLayout.

Module ResultsPerThread.
Inductive t := Rank0 | Rank1 | Rank2.
End ResultsPerThread.

Module BoundsCheck.
Inductive t := Yes | No.
End BoundsCheck.

Module AlphaTag.
Inductive t := Yes | No.
End AlphaTag.

Module Algo.
Module Gemm.
Inductive t := Unblocked | Blocked.
End Gemm.
Module Gemv.
Inductive t := Unblocked | Blocked.
End Gemv.
End Algo.

(** [Kokkos::LayoutLeft], [Kokkos::LayoutRight], [Kokkos::LayoutStride]. *)
Inductive array_layout := LayoutLeft | LayoutRight | LayoutStride.

(** Execution spaces. The source singles out [Kokkos::Experimental::HIP];
    every other space is one of [OtherSpace]. *)
Inductive execution_space := Experimental_HIP | OtherSpace (id : nat).

(* ===================================================================== *)
(** ** Strings: [std::to_string] and [std::endl]                          *)
(* ===================================================================== *)

(** [std::to_string(int)]: decimal digits, a leading minus sign for
    negative values. *)
Definition to_string (z : Z) : string := NilZero.string_of_int (Z.to_int z).

(** [std::to_string(size_t)]. *)
Definition to_string_size_t (n : N) : string :=
  NilZero.string_of_uint (N.to_uint n).

Definition endl : string := String (ascii_of_nat 10) EmptyString.

(* ===================================================================== *)
(** ** Compile-time environment                                           *)
(* ===================================================================== *)

(** Preprocessor symbols consulted by the host-level GEMM file. *)
Record Macros := {
  KOKKOS_ENABLE_HIP : bool;
  KOKKOS_ARCH_VEGA908 : bool;
  CUDACC_RDC : bool;            (* __CUDACC_RDC__ *)
  (* KOKKOSKERNELS_ENABLE_TPL_ARMPL && ARMPL_BUILD >= 1058 *)
  ENABLE_TPL_ARMPL : bool
}.

(** The template arguments of [BatchedGemmWrapperInner] as far as [run]
    looks at them, together with the compile-time predicates on them that
    live in headers outside this file ([is_vector],
    [kk_is_gpu_exec_space], [kk_is_x86_64_mem_space],
    [kk_is_a64fx_mem_space]). *)
Record Instantiation := {
  ArgTransA : Trans.t;
  ArgTransB : Trans.t;
  ArgBatchSzDim : BatchLayout.t;
  layout_type : array_layout;      (* CViewType::array_layout *)
  exec_space : execution_space;    (* CViewType::execution_space *)
  is_vector : bool;                (* is_vector<CViewType::value_type> *)
  on_gpu : bool;
  on_x86_64 : bool;
  on_a64fx : bool
}.

(** The [static_assert]s of [run] on transpose tags and on the pairing of
    storage layout and batch layout. An instantiation that fails them does
    not compile. *)
Definition static_asserts (i : Instantiation) : bool :=
  (match ArgTransA i with Trans.ConjTranspose => false | _ => true end)
  && (match ArgTransB i with Trans.ConjTranspose => false | _ => true end)
  && negb (match layout_type i, ArgBatchSzDim i with
           | LayoutLeft, BatchLayout.Left => true
           | _, _ => false
           end)
  && negb (match layout_type i, ArgBatchSzDim i with
           | LayoutRight, BatchLayout.Right => true
           | _, _ => false
           end).

(** The algorithm identifiers that [run] switches on. Their numeric values
    are fixed by [KokkosBatched_Gemm_Handle.hpp], which is not part of
    these sources, so they are a parameter. *)
Record KernelAlgoIds := {
  SQUARE : Z;            (* BaseHeuristicAlgos::SQUARE *)
  ARMPL : Z;             (* BaseTplAlgos::ARMPL *)
  KK_SERIAL : Z;         (* BaseKokkosBatchedAlgos::KK_SERIAL *)
  KK_SERIAL_RANK0 : Z;   (* GemmKokkosBatchedAlgos::KK_SERIAL_RANK0 *)
  KK_DBLBUF : Z          (* GemmKokkosBatchedAlgos::KK_DBLBUF *)
}.

Fixpoint distinct (l : list Z) : bool :=
  match l with
  | [] => true
  | x :: rest => negb (existsb (Z.eqb x) rest) && distinct rest
  end.

(** Enumerators of one enumeration chain are pairwise different (and a
    [switch] with two equal labels does not compile). *)
Definition labels_distinct (ids : KernelAlgoIds) : bool :=
  distinct [SQUARE ids; ARMPL ids; KK_SERIAL ids; KK_SERIAL_RANK0 ids;
            KK_DBLBUF ids].

(* ===================================================================== *)
(** ** Tile sizes and the alpha-in-fma threshold                          *)
(* ===================================================================== *)

Definition kk_gemm_dlb_buf_tile_m (e : execution_space) : Z := 32.

Definition kk_gemm_dlb_buf_tile_n (e : execution_space) : Z := 32.

(** Primary template returns 8; the specialisation for HIP exists only
    under [KOKKOS_ENABLE_HIP && KOKKOS_ARCH_VEGA908] and returns 16. *)
Definition kk_gemm_dlb_buf_tile_k (mc : Macros) (e : execution_space) : Z :=
  match e with
  | Experimental_HIP =>
      if KOKKOS_ENABLE_HIP mc && KOKKOS_ARCH_VEGA908 mc then 16 else 8
  | OtherSpace _ => 8
  end.

Definition kk_gemm_dbl_buf_alpha_in_fma_thresh (mc : Macros) : N :=
  if CUDACC_RDC mc then 24%N else 64%N.

(* ===================================================================== *)
(** ** The handle and the kernels that [run] can launch                   *)
(* ===================================================================== *)

(** The members of the handle that [run] reads or writes. *)
Record BatchedGemmHandle := {
  kernelAlgoType : Z;      (* get_kernel_algo_type() *)
  teamSz : Z;
  vecLen : Z;
  enableDebug : bool
}.

Definition set_teamSz (v : Z) (h : BatchedGemmHandle) : BatchedGemmHandle :=
  {| kernelAlgoType := kernelAlgoType h; teamSz := v;
     vecLen := vecLen h; enableDebug := enableDebug h |}.

Definition set_vecLen (v : Z) (h : BatchedGemmHandle) : BatchedGemmHandle :=
  {| kernelAlgoType := kernelAlgoType h; teamSz := teamSz h;
     vecLen := v; enableDebug := enableDebug h |}.

(** A kernel class template with the template arguments that [run] chooses
    (the transpose tags, batch layout, scalar and view types are passed on
    unchanged from the wrapper's own template arguments). *)
Inductive Kernel :=
| BatchedSerialGemm (ArgMode : Algo.Gemm.t)
                    (ArgResultsPerThread : ResultsPerThread.t)
| BatchedDblBufGemm (ArgBoundsCheck : BoundsCheck.t)
                    (ArgAlphaFmaTag : AlphaTag.t)
                    (tile_m tile_n tile_k : Z)
| BatchedArmplGemm.

(** Whether the kernel's constructor receives the handle pointer. *)
Definition takes_handle (k : Kernel) : bool :=
  match k with
  | BatchedSerialGemm _ _ => false
  | BatchedDblBufGemm _ _ _ _ _ => true
  | BatchedArmplGemm => true
  end.

Definition is_DblBuf (k : Kernel) : bool :=
  match k with BatchedDblBufGemm _ _ _ _ _ => true | _ => false end.

(** What is written to [std::cout] when [enableDebug] is set; the
    [typeid(...).name()] strings are implementation-defined and left out. *)
Inductive DebugOut :=
| DebugSpaces (is_vector on_gpu on_x86_64 on_a64fx : bool)
| DebugSerialParams (rpt : ResultsPerThread.t) (mode : Algo.Gemm.t).

(** Result of a call: a returned value or a thrown [std::runtime_error]. *)
Inductive Result (A : Type) :=
| Ok (a : A)
| Thrown (what : string).
Arguments Ok {A} a.
Arguments Thrown {A} what.

(** [switch (x) { case l1: b1; break; ... default: d }] with distinct
    labels: the first (and only) matching label is taken. *)
Fixpoint switch {A : Type} (x : Z) (cases : list (Z * A)) (default : A) : A :=
  match cases with
  | [] => default
  | (l, b) :: rest => if Z.eqb x l then b else switch x rest default
  end.

(* ===================================================================== *)
(** ** [BatchedGemmWrapperInner::run]                                     *)
(* ===================================================================== *)

Section HostLevelGemm.

Variables ScalarType AViewType BViewType CData : Type.

(** The output view: its three extents and the data it refers to. *)
Record CViewType := {
  C_extent_0 : N;
  C_extent_1 : N;
  C_extent_2 : N;
  C_data : CData
}.

Definition extent (C : CViewType) (r : nat) : N :=
  match r with
  | 0%nat => C_extent_0 C
  | 1%nat => C_extent_1 C
  | 2%nat => C_extent_2 C
  | _ => 1%N
  end.

(** One kernel invocation, with the handle as it is at that moment. *)
Record Launch := {
  kernel : Kernel;
  handle_at_launch : BatchedGemmHandle
}.

(** Everything a call can observe or change. [launched] is the log of
    kernel invocations, oldest first. *)
Record World := {
  handle : BatchedGemmHandle;
  C : CViewType;
  cout : list DebugOut;
  launched : list Launch
}.

(** The kernels' [invoke()], declared but not defined in this file.
    Kernels constructed with the handle pointer may update the handle. *)
Variable BatchedSerialGemm_invoke :
  Trans.t -> Trans.t -> Algo.Gemm.t -> BatchLayout.t -> ResultsPerThread.t ->
  ScalarType -> AViewType -> BViewType -> ScalarType -> CViewType ->
  CViewType * Result Z.
Variable BatchedDblBufGemm_invoke :
  Trans.t -> Trans.t -> BatchLayout.t -> BoundsCheck.t -> AlphaTag.t ->
  Z -> Z -> Z ->
  BatchedGemmHandle -> ScalarType -> AViewType -> BViewType -> ScalarType ->
  CViewType -> BatchedGemmHandle * CViewType * Result Z.
Variable BatchedArmplGemm_invoke :
  Trans.t -> Trans.t -> BatchLayout.t ->
  BatchedGemmHandle -> ScalarType -> AViewType -> BViewType -> ScalarType ->
  CViewType -> BatchedGemmHandle * CViewType * Result Z.

Variable ids : KernelAlgoIds.
Variable mc : Macros.
Variable inst : Instantiation.

(** State and exception monad; the state survives a throw. *)
Definition M (A : Type) := World -> World * Result A.

Definition ret {A} (a : A) : M A := fun w => (w, Ok a).

Definition bind {A B} (m : M A) (f : A -> M B) : M B :=
  fun w => match m w with
           | (w', Ok a) => f a w'
           | (w', Thrown e) => (w', Thrown e)
           end.

Notation "x <- m ;; k" := (bind m (fun x => k))
  (at level 61, m at next level, right associativity).
Notation "m ;;; k" := (bind m (fun _ => k))
  (at level 61, right associativity).

(** [KokkosKernels::Impl::throw_runtime_exception]. *)
Definition throw_runtime_exception {A} (msg : string) : M A :=
  fun w => (w, Thrown msg).

Definition get_handle : M BatchedGemmHandle := fun w => (w, Ok (handle w)).

Definition get_C : M CViewType := fun w => (w, Ok (C w)).

Definition modify_handle (f : BatchedGemmHandle -> BatchedGemmHandle)
  : M unit :=
  fun w => ({| handle := f (handle w); C := C w; cout := cout w;
               launched := launched w |}, Ok tt).

Definition print (d : DebugOut) : M unit :=
  fun w => ({| handle := handle w; C := C w; cout := cout w ++ [d];
               launched := launched w |}, Ok tt).

Definition when (b : bool) (m : M unit) : M unit := if b then m else ret tt.

(** Construct the kernel object and call its [invoke()]. *)
Definition invoke (k : Kernel) (alpha : ScalarType) (A : AViewType)
           (B : BViewType) (beta : ScalarType) : M Z :=
  fun w =>
    let log := launched w ++ [{| kernel := k; handle_at_launch := handle w |}] in
    match k with
    | BatchedSerialGemm mode rpt =>
        let '(C', r) :=
          BatchedSerialGemm_invoke (ArgTransA inst) (ArgTransB inst) mode
            (ArgBatchSzDim inst) rpt alpha A B beta (C w) in
        ({| handle := handle w; C := C'; cout := cout w; launched := log |}, r)
    | BatchedDblBufGemm bc at_ tm tn tk =>
        let '(h', C', r) :=
          BatchedDblBufGemm_invoke (ArgTransA inst) (ArgTransB inst)
            (ArgBatchSzDim inst) bc at_ tm tn tk (handle w) alpha A B beta
            (C w) in
        ({| handle := h'; C := C'; cout := cout w; launched := log |}, r)
    | BatchedArmplGemm =>
        let '(h', C', r) :=
          BatchedArmplGemm_invoke (ArgTransA inst) (ArgTransB inst)
            (ArgBatchSzDim inst) (handle w) alpha A B beta (C w) in
        ({| handle := h'; C := C'; cout := cout w; launched := log |}, r)
    end.

(** [bsgResultsPerThread]. *)
Definition bsgResultsPerThread : ResultsPerThread.t :=
  if negb (is_vector inst) && on_gpu inst
  then ResultsPerThread.Rank0 else ResultsPerThread.Rank2.

(** [bsgModeType]. *)
Definition bsgModeType : Algo.Gemm.t :=
  if is_vector inst then
    (if on_gpu inst || on_x86_64 inst
     then Algo.Gemm.Blocked else Algo.Gemm.Unblocked)
  else
    (if on_gpu inst then Algo.Gemm.Unblocked
     else if on_a64fx inst then Algo.Gemm.Unblocked
          else Algo.Gemm.Blocked).

(** The condition of line 389-391:
    [is_same<layout_type, LayoutLeft> ? (c_m >= 16)
                                      : (c_m >= 24 && c_m <= 32) || c_m >= 40]. *)
Definition dblbuf_in_range (c_m : N) : bool :=
  match layout_type inst with
  | LayoutLeft => (16 <=? c_m)%N
  | _ => ((24 <=? c_m)%N && (c_m <=? 32)%N) || (40 <=? c_m)%N
  end.

(** The rank check for views of SIMD value type (first [switch]). *)
Definition simd_rank_check : M unit :=
  if is_vector inst then
    h <- get_handle ;;
    switch (kernelAlgoType h)
      [ (KK_SERIAL ids, ret tt);
        (SQUARE ids, ret tt);
        (ARMPL ids, ret tt) ]
      (throw_runtime_exception
         ("KokkosBatched::BatchedGemm does not support kernelAlgoType = "
            ++ to_string (kernelAlgoType h) ++ " with SIMD views." ++ endl)%string)
  else ret tt.

(** [case BaseHeuristicAlgos::SQUARE]. *)
Definition case_SQUARE (c_m c_n : N) (alpha : ScalarType) (A : AViewType)
           (B : BViewType) (beta : ScalarType) : M Z :=
  h <- get_handle ;;
  when (negb (c_m =? c_n)%N)
    (throw_runtime_exception
       ("KokkosBatched::BatchedGemm does not support kernelAlgoType = "
          ++ to_string (kernelAlgoType h) ++ " when c_m("
          ++ to_string_size_t c_m ++ ") != c_n(" ++ to_string_size_t c_n
          ++ ")" ++ endl)%string) ;;;
  when (enableDebug h)
    (print (DebugSerialParams bsgResultsPerThread bsgModeType)) ;;;
  st <- (if on_gpu inst then
           if dblbuf_in_range c_m then
             modify_handle (set_vecLen 8) ;;;
             modify_handle (set_teamSz 8) ;;;
             let tile_m := kk_gemm_dlb_buf_tile_m (exec_space inst) in
             let tile_n := kk_gemm_dlb_buf_tile_n (exec_space inst) in
             let tile_k := kk_gemm_dlb_buf_tile_k mc (exec_space inst) in
             let alpha_in_fma_thresh := kk_gemm_dbl_buf_alpha_in_fma_thresh mc in
             r <- (if (c_m mod 32 =? 0)%N then
                     if (alpha_in_fma_thresh <=? c_m)%N then
                       invoke (BatchedDblBufGemm BoundsCheck.No AlphaTag.Yes
                                 tile_m tile_n tile_k) alpha A B beta
                     else
                       invoke (BatchedDblBufGemm BoundsCheck.No AlphaTag.No
                                 tile_m tile_n tile_k) alpha A B beta
                   else
                     if (alpha_in_fma_thresh <=? c_m)%N then
                       invoke (BatchedDblBufGemm BoundsCheck.Yes AlphaTag.Yes
                                 tile_m tile_n tile_k) alpha A B beta
                     else
                       invoke (BatchedDblBufGemm BoundsCheck.Yes AlphaTag.No
                                 tile_m tile_n tile_k) alpha A B beta) ;;
             ret (r, false)
           else ret (0%Z, true)
         else ret (0%Z, false)) ;;
  let '(r, out_of_range) := st in
  if negb (on_gpu inst) || out_of_range then
    invoke (BatchedSerialGemm bsgModeType bsgResultsPerThread) alpha A B beta
  else ret r.

(** [static int run(handle, alpha, A, B, beta, C)]. The handle and [C]
    are the ones of the world the call starts in. *)
Definition run (alpha : ScalarType) (A : AViewType) (B : BViewType)
           (beta : ScalarType) : M Z :=
  simd_rank_check ;;;
  Cv <- get_C ;;
  let '(c_m, c_n) :=
    match ArgBatchSzDim inst with
    | BatchLayout.Left => (extent Cv 1, extent Cv 2)
    | BatchLayout.Right => (extent Cv 0, extent Cv 1)
    end in
  h <- get_handle ;;
  when (enableDebug h)
    (print (DebugSpaces (is_vector inst) (on_gpu inst) (on_x86_64 inst)
              (on_a64fx inst))) ;;;
  switch (kernelAlgoType h)
    ([ (SQUARE ids, case_SQUARE c_m c_n alpha A B beta) ]
     ++ (if ENABLE_TPL_ARMPL mc
         then [ (ARMPL ids, invoke BatchedArmplGemm alpha A B beta) ]
         else [])
     ++ [ (KK_SERIAL ids,
           invoke (BatchedSerialGemm Algo.Gemm.Unblocked
                     ResultsPerThread.Rank2) alpha A B beta);
          (KK_SERIAL_RANK0 ids,
           invoke (BatchedSerialGemm Algo.Gemm.Unblocked
                     ResultsPerThread.Rank0) alpha A B beta);
          (KK_DBLBUF ids,
           invoke (BatchedDblBufGemm BoundsCheck.Yes AlphaTag.No 1 1 1)
             alpha A B beta) ])
    (throw_runtime_exception
       ("KokkosBatched::BatchedGemm does not support kernelAlgoType = "
          ++ to_string (kernelAlgoType h) ++ "." ++ endl)%string).

End HostLevelGemm.

Arguments C_extent_0 {CData} _.
Arguments C_extent_1 {CData} _.
Arguments C_extent_2 {CData} _.
Arguments C_data {CData} _.
Arguments Build_CViewType {CData} _ _ _ _.
Arguments extent {CData} C r.
Arguments handle {CData} _.
Arguments C {CData} _.
Arguments cout {CData} _.
Arguments launched {CData} _.
Arguments Build_World {CData} _ _ _ _.
Arguments invoke {ScalarType AViewType BViewType CData} _ _ _ _ _ _ _ _ _ _.
Arguments simd_rank_check {CData} ids inst _.
Arguments case_SQUARE {ScalarType AViewType BViewType CData} _ _ _ _ _ _ _ _ _ _ _.
Arguments run {ScalarType AViewType BViewType CData} _ _ _ _ _ _ _ _ _ _.

(** The extents that [run] calls [c_m] and [c_n]. *)
Definition c_m_of {CData} (i : Instantiation) (Cv : CViewType CData) : N :=
  match ArgBatchSzDim i with
  | BatchLayout.Left => extent Cv 1
  | BatchLayout.Right => extent Cv 0
  end.

Definition c_n_of {CData} (i : Instantiation) (Cv : CViewType CData) : N :=
  match ArgBatchSzDim i with
  | BatchLayout.Left => extent Cv 2
  | BatchLayout.Right => extent Cv 1
  end.

(** The world a call starts in: nothing printed, nothing launched yet. *)
Definition initial_world {CData} (h : BatchedGemmHandle)
           (Cv : CViewType CData) : World CData :=
  {| handle := h; C := Cv; cout := []; launched := [] |}.

(** The case labels of the two [switch] statements of [run]. *)
Definition simd_labels (ids : KernelAlgoIds) : list Z :=
  [KK_SERIAL ids; SQUARE ids; ARMPL ids].

Definition dispatch_labels (ids : KernelAlgoIds) (mc : Macros) : list Z :=
  [SQUARE ids] ++ (if ENABLE_TPL_ARMPL mc then [ARMPL ids] else [])
  ++ [KK_SERIAL ids; KK_SERIAL_RANK0 ids; KK_DBLBUF ids].

(** An identifier is recognized for an instantiation when both switches
    have a case for it (the first one only applies to SIMD value types). *)
Definition recognized (ids : KernelAlgoIds) (mc : Macros) (i : Instantiation)
           (algo : Z) : bool :=
  (if is_vector i then existsb (Z.eqb algo) (simd_labels ids) else true)
  && existsb (Z.eqb algo) (dispatch_labels ids mc).

(** The world after a conditional debug print. *)
Definition with_debug {CData} (b : bool) (d : DebugOut) (w : World CData)
  : World CData :=
  if b then {| handle := handle w; C := C w; cout := cout w ++ [d];
               launched := launched w |}
  else w.

(** The world after [handle->teamSz = handle->vecLen = 8]. *)
Definition with_tuning {CData} (w : World CData) : World CData :=
  {| handle := set_teamSz 8 (set_vecLen 8 (handle w)); C := C w;
     cout := cout w; launched := launched w |}.

(* ===================================================================== *)
(** ** [TeamVectorGemv]                                                   *)
(* ===================================================================== *)

Section TeamVectorGemv.

Variables MemberType ScalarType Pointer Memory : Type.

(** A rank-3 view of [A]: layout tag, data pointer, extents, strides. *)
Record AViewType3 := {
  A_array_layout : array_layout;
  A_data : Pointer;
  A_extent_0 : N;
  A_extent_1 : N;
  A_extent_2 : N;
  A_stride_0 : N;
  A_stride_1 : N;
  A_stride_2 : N
}.

(** What [invoke] uses of the views [x] and [y]. *)
Record VecViewType := {
  V_data : Pointer;
  V_stride_0 : N;
  V_stride_1 : N
}.

(** Either [invoke] returns its status, having updated memory, or the
    process is terminated by [Kokkos::abort]. *)
Inductive GemvOutcome :=
| Returned (mem : Memory) (status : Z)
| Aborted (msg : string).

(** [TeamVectorGemvInternal<Algo>::invoke<MemberType, ScalarType, layout,
    ValueType>(member, N, m, n, alpha, A, as0, as1, as2, x, xs0, xs1,
    beta, y, ys0, ys1)], defined in
    [KokkosBatched_Gemv_TeamVector_Internal.hpp]. *)
Variable TeamVectorGemvInternal_invoke :
  Algo.Gemv.t -> array_layout -> MemberType ->
  N -> N -> N -> ScalarType -> Pointer -> N -> N -> N ->
  Pointer -> N -> N -> ScalarType -> Pointer -> N -> N ->
  Memory -> Memory * Z.

Definition returned (r : Memory * Z) : GemvOutcome :=
  Returned (fst r) (snd r).

(** [TeamVectorGemv<MemberType, Trans::NoTranspose, Algo::Gemv::Unblocked>] *)
Definition TeamVectorGemv_NoTranspose_Unblocked_invoke
           (member : MemberType) (alpha : ScalarType) (A : AViewType3)
           (x : VecViewType) (beta : ScalarType) (y : VecViewType)
           (mem : Memory) : GemvOutcome :=
  returned
    (TeamVectorGemvInternal_invoke Algo.Gemv.Unblocked (A_array_layout A)
       member (A_extent_0 A) (A_extent_1 A) (A_extent_2 A) alpha (A_data A)
       (A_stride_0 A) (A_stride_1 A) (A_stride_2 A)
       (V_data x) (V_stride_0 x) (V_stride_1 x) beta
       (V_data y) (V_stride_0 y) (V_stride_1 y) mem).

(** [TeamVectorGemv<MemberType, Trans::NoTranspose, Algo::Gemv::Blocked>] *)
Definition TeamVectorGemv_NoTranspose_Blocked_invoke
           (member : MemberType) (alpha : ScalarType) (A : AViewType3)
           (x : VecViewType) (beta : ScalarType) (y : VecViewType)
           (mem : Memory) : GemvOutcome :=
  Aborted
    ("KokkosBatched::TeamVectorGemv<Algo::Gemv::Blocked> for rank-3 matrix "
       ++ "is NOT implemented")%string.

(** [TeamVectorGemv<MemberType, Trans::Transpose, Algo::Gemv::Unblocked>] *)
Definition TeamVectorGemv_Transpose_Unblocked_invoke
           (member : MemberType) (alpha : ScalarType) (A : AViewType3)
           (x : VecViewType) (beta : ScalarType) (y : VecViewType)
           (mem : Memory) : GemvOutcome :=
  returned
    (TeamVectorGemvInternal_invoke Algo.Gemv.Unblocked (A_array_layout A)
       member (A_extent_0 A) (A_extent_2 A) (A_extent_1 A) alpha (A_data A)
       (A_stride_0 A) (A_stride_2 A) (A_stride_1 A)
       (V_data x) (V_stride_0 x) (V_stride_1 x) beta
       (V_data y) (V_stride_0 y) (V_stride_1 y) mem).

(** [TeamVectorGemv<MemberType, Trans::Transpose, Algo::Gemv::Blocked>] *)
Definition TeamVectorGemv_Transpose_Blocked_invoke
           (member : MemberType) (alpha : ScalarType) (A : AViewType3)
           (x : VecViewType) (beta : ScalarType) (y : VecViewType)
           (mem : Memory) : GemvOutcome :=
  Aborted
    ("KokkosBatched::TeamVectorGemv<Algo::Gemv::Blocked> for rank-3 matrix "
       ++ "is NOT implemented")%string.

(** Selection of the specialisation by the template arguments. There is
    none for [Trans::ConjTranspose] in this file. *)
Definition TeamVectorGemv_invoke (ArgTrans : Trans.t) (ArgAlgo : Algo.Gemv.t)
  : option (MemberType -> ScalarType -> AViewType3 -> VecViewType ->
            ScalarType -> VecViewType -> Memory -> GemvOutcome) :=
  match ArgTrans, ArgAlgo with
  | Trans.NoTranspose, Algo.Gemv.Unblocked =>
      Some TeamVectorGemv_NoTranspose_Unblocked_invoke
  | Trans.NoTranspose, Algo.Gemv.Blocked =>
      Some TeamVectorGemv_NoTranspose_Blocked_invoke
  | Trans.Transpose, Algo.Gemv.Unblocked =>
      Some TeamVectorGemv_Transpose_Unblocked_invoke
  | Trans.Transpose, Algo.Gemv.Blocked =>
      Some TeamVectorGemv_Transpose_Blocked_invoke
  | Trans.ConjTranspose, _ => None
  end.

(** The view that shares [A]'s data and layout tag and has axes 1 and 2
    exchanged: extent 1 with extent 2, stride 1 with stride 2. *)
Definition swap_last_two_axes (A : AViewType3) : AViewType3 :=
  {| A_array_layout := A_array_layout A;
     A_data := A_data A;
     A_extent_0 := A_extent_0 A;
     A_extent_1 := A_extent_2 A;
     A_extent_2 := A_extent_1 A;
     A_stride_0 := A_stride_0 A;
     A_stride_1 := A_stride_2 A;
     A_stride_2 := A_stride_1 A |}.

End TeamVectorGemv.

Arguments Returned {Memory} mem status.
Arguments Aborted {Memory} msg.
Arguments returned {Memory} r.
Arguments A_array_layout {Pointer} _.
Arguments A_data {Pointer} _.
Arguments A_extent_0 {Pointer} _.
Arguments A_extent_1 {Pointer} _.
Arguments A_extent_2 {Pointer} _.
Arguments A_stride_0 {Pointer} _.
Arguments A_stride_1 {Pointer} _.
Arguments A_stride_2 {Pointer} _.
Arguments V_data {Pointer} _.
Arguments V_stride_0 {Pointer} _.
Arguments V_stride_1 {Pointer} _.
Arguments swap_last_two_axes {Pointer} A.
Arguments TeamVectorGemv_NoTranspose_Unblocked_invoke
  {MemberType ScalarType Pointer Memory} _ _ _ _ _ _ _ _.
Arguments TeamVectorGemv_NoTranspose_Blocked_invoke
  {MemberType ScalarType Pointer Memory} _ _ _ _ _ _ _.
Arguments TeamVectorGemv_Transpose_Unblocked_invoke
  {MemberType ScalarType Pointer Memory} _ _ _ _ _ _ _ _.
Arguments TeamVectorGemv_Transpose_Blocked_invoke
  {MemberType ScalarType Pointer Memory} _ _ _ _ _ _ _.
Arguments TeamVectorGemv_invoke
  {MemberType ScalarType Pointer Memory} _ _ _.

(* ===================================================================== *)
(** ** Sample instantiations                                              *)
(* ===================================================================== *)

Module Sample.

(** One admissible numbering of the identifiers. *)
Definition ids : KernelAlgoIds :=
  {| SQUARE := 0; ARMPL := 3; KK_SERIAL := 5; KK_SERIAL_RANK0 := 12;
     KK_DBLBUF := 14 |}.

Definition plain_macros : Macros :=
  {| KOKKOS_ENABLE_HIP := false; KOKKOS_ARCH_VEGA908 := false;
     CUDACC_RDC := false; ENABLE_TPL_ARMPL := false |}.

Definition vega908_macros : Macros :=
  {| KOKKOS_ENABLE_HIP := true; KOKKOS_ARCH_VEGA908 := true;
     CUDACC_RDC := false; ENABLE_TPL_ARMPL := false |}.

(** Scalar views in row-major storage on an accelerator. *)
Definition gpu_right : Instantiation :=
  {| ArgTransA := Trans.NoTranspose; ArgTransB := Trans.NoTranspose;
     ArgBatchSzDim := BatchLayout.Left; layout_type := LayoutRight;
     exec_space := OtherSpace 0; is_vector := false; on_gpu := true;
     on_x86_64 := false; on_a64fx := false |}.

(** Scalar views in row-major storage on HIP. *)
Definition hip_right : Instantiation :=
  {| ArgTransA := Trans.NoTranspose; ArgTransB := Trans.NoTranspose;
     ArgBatchSzDim := BatchLayout.Left; layout_type := LayoutRight;
     exec_space := Experimental_HIP; is_vector := false; on_gpu := true;
     on_x86_64 := false; on_a64fx := false |}.

(** Views of SIMD value type in column-major storage on an x86 host. *)
Definition simd_host_left : Instantiation :=
  {| ArgTransA := Trans.NoTranspose; ArgTransB := Trans.Transpose;
     ArgBatchSzDim := BatchLayout.Right; layout_type := LayoutLeft;
     exec_space := OtherSpace 1; is_vector := true; on_gpu := false;
     on_x86_64 := true; on_a64fx := false |}.

(** Stand-ins for the kernels: the data of [C] is a counter that every
    kernel run increments, and the kernels that hold the handle pointer
    also touch [teamSz]. *)
Definition touch (Cv : CViewType nat) : CViewType nat :=
  {| C_extent_0 := C_extent_0 Cv; C_extent_1 := C_extent_1 Cv;
     C_extent_2 := C_extent_2 Cv; C_data := S (C_data Cv) |}.

Definition serial (ta tb : Trans.t) (mode : Algo.Gemm.t)
           (bl : BatchLayout.t) (rpt : ResultsPerThread.t)
           (alpha : Z) (A B : unit) (beta : Z) (Cv : CViewType nat)
  : CViewType nat * Result Z :=
  (touch Cv, Ok 0%Z).

Definition dblbuf (ta tb : Trans.t) (bl : BatchLayout.t)
           (bc : BoundsCheck.t) (at_ : AlphaTag.t) (tm tn tk : Z)
           (h : BatchedGemmHandle) (alpha : Z) (A B : unit) (beta : Z)
           (Cv : CViewType nat)
  : BatchedGemmHandle * CViewType nat * Result Z :=
  (set_teamSz (teamSz h + 1) h, touch Cv, Ok 0%Z).

Definition armpl (ta tb : Trans.t) (bl : BatchLayout.t)
           (h : BatchedGemmHandle) (alpha : Z) (A B : unit) (beta : Z)
           (Cv : CViewType nat)
  : BatchedGemmHandle * CViewType nat * Result Z :=
  (set_teamSz (teamSz h + 1) h, touch Cv, Ok 0%Z).

Definition handle_for (algo : Z) : BatchedGemmHandle :=
  {| kernelAlgoType := algo; teamSz := 0; vecLen := 0;
     enableDebug := false |}.

(** A batch of 100 outputs of [m] rows and [n] columns. *)
Definition C_of (bl : BatchLayout.t) (m n : N) : CViewType nat :=
  match bl with
  | BatchLayout.Left =>
      {| C_extent_0 := 100; C_extent_1 := m; C_extent_2 := n; C_data := 0%nat |}
  | BatchLayout.Right =>
      {| C_extent_0 := m; C_extent_1 := n; C_extent_2 := 100; C_data := 0%nat |}
  end.

(** [run] on the stand-in kernels with [alpha = 1], [beta = 0]. *)
Definition call (mc : Macros) (i : Instantiation) (algo : Z) (m n : N)
  : World nat * Result Z :=
  run serial dblbuf armpl ids mc i 1%Z tt tt 0%Z
    (initial_world (handle_for algo) (C_of (ArgBatchSzDim i) m n)).

(** Stand-in for the internal GEMV kernel: memory is the log of the
    geometry it was called with. *)
Definition gemv_internal (algo : Algo.Gemv.t) (l : array_layout) (member : unit)
           (N_ m n : N) (alpha : Z) (A : nat) (as0 as1 as2 : N)
           (x : nat) (xs0 xs1 : N) (beta : Z) (y : nat) (ys0 ys1 : N)
           (mem : list (nat * list N)) : list (nat * list N) * Z :=
  (mem ++ [(A, [N_; m; n; as0; as1; as2])], 0%Z).

Definition A_view : AViewType3 nat :=
  {| A_array_layout := LayoutRight; A_data := 7%nat;
     A_extent_0 := 100; A_extent_1 := 3; A_extent_2 := 5;
     A_stride_0 := 15; A_stride_1 := 5; A_stride_2 := 1 |}.

Definition x_view : VecViewType nat :=
  {| V_data := 8%nat; V_stride_0 := 5; V_stride_1 := 1 |}.

Definition y_view : VecViewType nat :=
  {| V_data := 9%nat; V_stride_0 := 3; V_stride_1 := 1 |}.

End Sample.

(* ===================================================================== *)
(** ** The kernel a call launches, as a table                             *)
(* ===================================================================== *)

(** The kernel that [run] launches (none when it throws), as a function
    of the identifier and the two output extents only. *)
Definition selected_kernel (ids : KernelAlgoIds) (mc : Macros)
           (i : Instantiation) (algo : Z) (c_m c_n : N) : list Kernel :=
  if is_vector i && negb (existsb (Z.eqb algo) (simd_labels ids)) then []
  else
    switch algo
      ([ (SQUARE ids,
          if negb (c_m =? c_n)%N then []
          else if on_gpu i && dblbuf_in_range i c_m then
            [BatchedDblBufGemm
               (if (c_m mod 32 =? 0)%N then BoundsCheck.No else BoundsCheck.Yes)
               (if (kk_gemm_dbl_buf_alpha_in_fma_thresh mc <=? c_m)%N
                then AlphaTag.Yes else AlphaTag.No)
               (kk_gemm_dlb_buf_tile_m (exec_space i))
               (kk_gemm_dlb_buf_tile_n (exec_space i))
               (kk_gemm_dlb_buf_tile_k mc (exec_space i))]
          else [BatchedSerialGemm (bsgModeType i) (bsgResultsPerThread i)]) ]
       ++ (if ENABLE_TPL_ARMPL mc then [ (ARMPL ids, [BatchedArmplGemm]) ]
           else [])
       ++ [ (KK_SERIAL ids,
             [BatchedSerialGemm Algo.Gemm.Unblocked ResultsPerThread.Rank2]);
            (KK_SERIAL_RANK0 ids,
             [BatchedSerialGemm Algo.Gemm.Unblocked ResultsPerThread.Rank0]);
            (KK_DBLBUF ids,
             [BatchedDblBufGemm BoundsCheck.Yes AlphaTag.No 1 1 1]) ])
      [].

(* ===================================================================== *)
(** ** [BatchedGemmWrapper::run]                                          *)
(* ===================================================================== *)

(** Preprocessor symbols that decide which specialisations of
    [BatchedGemmWrapper] are defined and whether they announce
    themselves. *)
Record WrapperMacros := {
  KOKKOSKERNELS_IMPL_COMPILE_LIBRARY : bool;
  KOKKOSKERNELS_ETI_ONLY : bool;
  KOKKOSKERNELS_ENABLE_CHECK_SPECIALIZATION : bool
}.

(** The line a wrapper [printf]s under
    [KOKKOSKERNELS_ENABLE_CHECK_SPECIALIZATION] (the [typeid] names are
    left out). *)
Inductive SpecializationNote :=
| EtiSpecialization
| NonEtiSpecialization.

Section HostLevelGemmWrapper.

Variables ScalarType AViewType BViewType CData : Type.

Variable BatchedSerialGemm_invoke :
  Trans.t -> Trans.t -> Algo.Gemm.t -> BatchLayout.t -> ResultsPerThread.t ->
  ScalarType -> AViewType -> BViewType -> ScalarType -> CViewType CData ->
  CViewType CData * Result Z.
Variable BatchedDblBufGemm_invoke :
  Trans.t -> Trans.t -> BatchLayout.t -> BoundsCheck.t -> AlphaTag.t ->
  Z -> Z -> Z ->
  BatchedGemmHandle -> ScalarType -> AViewType -> BViewType -> ScalarType ->
  CViewType CData -> BatchedGemmHandle * CViewType CData * Result Z.
Variable BatchedArmplGemm_invoke :
  Trans.t -> Trans.t -> BatchLayout.t ->
  BatchedGemmHandle -> ScalarType -> AViewType -> BViewType -> ScalarType ->
  CViewType CData -> BatchedGemmHandle * CViewType CData * Result Z.

Variable ids : KernelAlgoIds.
Variable mc : Macros.
Variable wm : WrapperMacros.
Variable inst : Instantiation.

(** [BatchedGemmWrapper<..., eti_spec_avail>::run]. The primary template
    only declares [run]; the [true] specialisation is defined under
    [KOKKOSKERNELS_IMPL_COMPILE_LIBRARY], the [false] one unless
    [KOKKOSKERNELS_ETI_ONLY] is defined. [None] stands for a call that has
    no definition to bind to. The result pairs what the wrapper prints
    with the outcome of [BatchedGemmWrapperInner::run]. *)
Definition BatchedGemmWrapper_run (eti_spec_avail : bool)
           (alpha : ScalarType) (A : AViewType) (B : BViewType)
           (beta : ScalarType) (w : World CData)
  : option (list SpecializationNote * (World CData * Result Z)) :=
  if eti_spec_avail then
    if KOKKOSKERNELS_IMPL_COMPILE_LIBRARY wm then
      Some ((if KOKKOSKERNELS_ENABLE_CHECK_SPECIALIZATION wm
             then [EtiSpecialization] else []),
            run BatchedSerialGemm_invoke BatchedDblBufGemm_invoke
              BatchedArmplGemm_invoke ids mc inst alpha A B beta w)
    else None
  else
    if negb (KOKKOSKERNELS_ETI_ONLY wm) then
      Some ((if KOKKOSKERNELS_ENABLE_CHECK_SPECIALIZATION wm
             then [NonEtiSpecialization] else []),
            run BatchedSerialGemm_invoke BatchedDblBufGemm_invoke
              BatchedArmplGemm_invoke ids mc inst alpha A B beta w)
    else None.

End HostLevelGemmWrapper.

Arguments BatchedGemmWrapper_run {ScalarType AViewType BViewType CData}
  _ _ _ _ _ _ _ _ _ _ _ _ _.

(* ===================================================================== *)
(** ** The explicit-instantiation macros                                  *)
(* ===================================================================== *)

(** Preprocessor symbols consulted by the instantiation macros. *)
Record EtiMacros := {
  KOKKOSKERNELS_INST_LAYOUTRIGHT : bool;
  KOKKOSKERNELS_INST_LAYOUTLEFT : bool
}.

Section EtiSpecInst.

(** What the macro arguments [SCALAR], [EXEC_SPACE] and [MEM_SPACE] name. *)
Variables Scalar ExecSpace MemSpace : Type.

(** One [template struct BatchedGemmWrapper<ARG_TRANS_A, ARG_TRANS_B,
    ARG_BATCH_LAYOUT, BatchedGemmHandle, SCALAR, View<SCALAR***, LAYOUT,
    Device<EXEC_SPACE, MEM_SPACE>> (three times), true>;]. *)
Record EtiInstantiation := {
  eti_ArgTransA : Trans.t;
  eti_ArgTransB : Trans.t;
  eti_ArgBatchSzDim : BatchLayout.t;
  eti_scalar : Scalar;
  eti_layout : array_layout;
  eti_exec_space : ExecSpace;
  eti_mem_space : MemSpace
}.

(** A macro expands to the list of explicit instantiations it emits. *)
Definition KOKKOSBATCHED_GEMM_ETI_SPEC_INST_INNER
           (ARG_TRANS_A ARG_TRANS_B : Trans.t) (ARG_BATCH_LAYOUT : BatchLayout.t)
           (SCALAR : Scalar) (LAYOUT : array_layout) (EXEC_SPACE : ExecSpace)
           (MEM_SPACE : MemSpace) : list EtiInstantiation :=
  [ {| eti_ArgTransA := ARG_TRANS_A; eti_ArgTransB := ARG_TRANS_B;
       eti_ArgBatchSzDim := ARG_BATCH_LAYOUT; eti_scalar := SCALAR;
       eti_layout := LAYOUT; eti_exec_space := EXEC_SPACE;
       eti_mem_space := MEM_SPACE |} ].

Variable em : EtiMacros.

Definition KOKKOSBATCHED_GEMM_BLL_ETI_SPEC_INST_INNER
           (ARG_TRANS_A ARG_TRANS_B : Trans.t) (ARG_BATCH_LAYOUT : BatchLayout.t)
           (SCALAR : Scalar) (LAYOUT : array_layout) (EXEC_SPACE : ExecSpace)
           (MEM_SPACE : MemSpace) : list EtiInstantiation :=
  if KOKKOSKERNELS_INST_LAYOUTRIGHT em then
    KOKKOSBATCHED_GEMM_ETI_SPEC_INST_INNER ARG_TRANS_A ARG_TRANS_B
      ARG_BATCH_LAYOUT SCALAR LayoutRight EXEC_SPACE MEM_SPACE
  else [].

Definition KOKKOSBATCHED_GEMM_BLR_ETI_SPEC_INST_INNER
           (ARG_TRANS_A ARG_TRANS_B : Trans.t) (ARG_BATCH_LAYOUT : BatchLayout.t)
           (SCALAR : Scalar) (LAYOUT : array_layout) (EXEC_SPACE : ExecSpace)
           (MEM_SPACE : MemSpace) : list EtiInstantiation :=
  if KOKKOSKERNELS_INST_LAYOUTLEFT em then
    KOKKOSBATCHED_GEMM_ETI_SPEC_INST_INNER ARG_TRANS_A ARG_TRANS_B
      ARG_BATCH_LAYOUT SCALAR LayoutLeft EXEC_SPACE MEM_SPACE
  else [].

Definition KOKKOSBATCHED_GEMM_NT_NT_BLL_ETI_SPEC_INST
           (SCALAR : Scalar) (LAYOUT : array_layout) (EXEC_SPACE : ExecSpace)
           (MEM_SPACE : MemSpace) : list EtiInstantiation :=
  KOKKOSBATCHED_GEMM_BLL_ETI_SPEC_INST_INNER Trans.NoTranspose
    Trans.NoTranspose BatchLayout.Left SCALAR LAYOUT EXEC_SPACE MEM_SPACE.

Definition KOKKOSBATCHED_GEMM_NT_T_BLL_ETI_SPEC_INST
           (SCALAR : Scalar) (LAYOUT : array_layout) (EXEC_SPACE : ExecSpace)
           (MEM_SPACE : MemSpace) : list EtiInstantiation :=
  KOKKOSBATCHED_GEMM_BLL_ETI_SPEC_INST_INNER Trans.NoTranspose
    Trans.Transpose BatchLayout.Left SCALAR LAYOUT EXEC_SPACE MEM_SPACE.

Definition KOKKOSBATCHED_GEMM_T_NT_BLL_ETI_SPEC_INST
           (SCALAR : Scalar) (LAYOUT : array_layout) (EXEC_SPACE : ExecSpace)
           (MEM_SPACE : MemSpace) : list EtiInstantiation :=
  KOKKOSBATCHED_GEMM_BLL_ETI_SPEC_INST_INNER Trans.Transpose
    Trans.NoTranspose BatchLayout.Left SCALAR LAYOUT EXEC_SPACE MEM_SPACE.

Definition KOKKOSBATCHED_GEMM_T_T_BLL_ETI_SPEC_INST
           (SCALAR : Scalar) (LAYOUT : array_layout) (EXEC_SPACE : ExecSpace)
           (MEM_SPACE : MemSpace) : list EtiInstantiation :=
  KOKKOSBATCHED_GEMM_BLL_ETI_SPEC_INST_INNER Trans.Transpose
    Trans.Transpose BatchLayout.Left SCALAR LAYOUT EXEC_SPACE MEM_SPACE.

Definition KOKKOSBATCHED_GEMM_NT_NT_BLR_ETI_SPEC_INST
           (SCALAR : Scalar) (LAYOUT : array_layout) (EXEC_SPACE : ExecSpace)
           (MEM_SPACE : MemSpace) : list EtiInstantiation :=
  KOKKOSBATCHED_GEMM_BLR_ETI_SPEC_INST_INNER Trans.NoTranspose
    Trans.NoTranspose BatchLayout.Right SCALAR LAYOUT EXEC_SPACE MEM_SPACE.

Definition KOKKOSBATCHED_GEMM_NT_T_BLR_ETI_SPEC_INST
           (SCALAR : Scalar) (LAYOUT : array_layout) (EXEC_SPACE : ExecSpace)
           (MEM_SPACE : MemSpace) : list EtiInstantiation :=
  KOKKOSBATCHED_GEMM_BLR_ETI_SPEC_INST_INNER Trans.NoTranspose
    Trans.Transpose BatchLayout.Right SCALAR LAYOUT EXEC_SPACE MEM_SPACE.

Definition KOKKOSBATCHED_GEMM_T_NT_BLR_ETI_SPEC_INST
           (SCALAR : Scalar) (LAYOUT : array_layout) (EXEC_SPACE : ExecSpace)
           (MEM_SPACE : MemSpace) : list EtiInstantiation :=
  KOKKOSBATCHED_GEMM_BLR_ETI_SPEC_INST_INNER Trans.Transpose
    Trans.NoTranspose BatchLayout.Right SCALAR LAYOUT EXEC_SPACE MEM_SPACE.

Definition KOKKOSBATCHED_GEMM_T_T_BLR_ETI_SPEC_INST
           (SCALAR : Scalar) (LAYOUT : array_layout) (EXEC_SPACE : ExecSpace)
           (MEM_SPACE : MemSpace) : list EtiInstantiation :=
  KOKKOSBATCHED_GEMM_BLR_ETI_SPEC_INST_INNER Trans.Transpose
    Trans.Transpose BatchLayout.Right SCALAR LAYOUT EXEC_SPACE MEM_SPACE.

(** The eight macros offered to the instantiation files. *)
Definition eti_spec_inst_macros
  : list (Scalar -> array_layout -> ExecSpace -> MemSpace ->
          list EtiInstantiation) :=
  [ KOKKOSBATCHED_GEMM_NT_NT_BLL_ETI_SPEC_INST;
    KOKKOSBATCHED_GEMM_NT_T_BLL_ETI_SPEC_INST;
    KOKKOSBATCHED_GEMM_T_NT_BLL_ETI_SPEC_INST;
    KOKKOSBATCHED_GEMM_T_T_BLL_ETI_SPEC_INST;
    KOKKOSBATCHED_GEMM_NT_NT_BLR_ETI_SPEC_INST;
    KOKKOSBATCHED_GEMM_NT_T_BLR_ETI_SPEC_INST;
    KOKKOSBATCHED_GEMM_T_NT_BLR_ETI_SPEC_INST;
    KOKKOSBATCHED_GEMM_T_T_BLR_ETI_SPEC_INST ].

(** The template arguments of [BatchedGemmWrapperInner] that an explicit
    instantiation fixes; the predicates on the scalar and on the spaces
    are supplied by the caller. *)
Definition instantiation_of (e : EtiInstantiation)
           (space : execution_space) (vec gpu x86_64 a64fx : bool)
  : Instantiation :=
  {| ArgTransA := eti_ArgTransA e; ArgTransB := eti_ArgTransB e;
     ArgBatchSzDim := eti_ArgBatchSzDim e; layout_type := eti_layout e;
     exec_space := space; is_vector := vec; on_gpu := gpu;
     on_x86_64 := x86_64; on_a64fx := a64fx |}.

End EtiSpecInst.

Arguments eti_ArgTransA {Scalar ExecSpace MemSpace} _.
Arguments eti_ArgTransB {Scalar ExecSpace MemSpace} _.
Arguments eti_ArgBatchSzDim {Scalar ExecSpace MemSpace} _.
Arguments eti_scalar {Scalar ExecSpace MemSpace} _.
Arguments eti_layout {Scalar ExecSpace MemSpace} _.
Arguments eti_exec_space {Scalar ExecSpace MemSpace} _.
Arguments eti_mem_space {Scalar ExecSpace MemSpace} _.
Arguments eti_spec_inst_macros {Scalar ExecSpace MemSpace} em.
Arguments instantiation_of {Scalar ExecSpace MemSpace} e _ _ _ _ _.

(* ===================================================================== *)
(** ** Further sample instantiations                                      *)
(* ===================================================================== *)

Module MoreSamples.

(** Scalar views in column-major storage on an A64FX host. *)
Definition a64fx_left : Instantiation :=
  {| ArgTransA := Trans.Transpose; ArgTransB := Trans.NoTranspose;
     ArgBatchSzDim := BatchLayout.Right; layout_type := LayoutLeft;
     exec_space := OtherSpace 2; is_vector := false; on_gpu := false;
     on_x86_64 := false; on_a64fx := true |}.

Definition armpl_macros : Macros :=
  {| KOKKOS_ENABLE_HIP := false; KOKKOS_ARCH_VEGA908 := false;
     CUDACC_RDC := false; ENABLE_TPL_ARMPL := true |}.

Definition debug_handle_for (algo : Z) : BatchedGemmHandle :=
  {| kernelAlgoType := algo; teamSz := 3; vecLen := 4;
     enableDebug := true |}.

(** Kernels that fail: they leave [C] alone and throw. *)
Definition failing_serial (ta tb : Trans.t) (mode : Algo.Gemm.t)
           (bl : BatchLayout.t) (rpt : ResultsPerThread.t)
           (alpha : Z) (A B : unit) (beta : Z) (Cv : CViewType nat)
  : CViewType nat * Result Z :=
  (Cv, Thrown "serial").

Definition failing_dblbuf (ta tb : Trans.t) (bl : BatchLayout.t)
           (bc : BoundsCheck.t) (at_ : AlphaTag.t) (tm tn tk : Z)
           (h : BatchedGemmHandle) (alpha : Z) (A B : unit) (beta : Z)
           (Cv : CViewType nat)
  : BatchedGemmHandle * CViewType nat * Result Z :=
  (h, Cv, Thrown "dblbuf").

Definition failing_armpl (ta tb : Trans.t) (bl : BatchLayout.t)
           (h : BatchedGemmHandle) (alpha : Z) (A B : unit) (beta : Z)
           (Cv : CViewType nat)
  : BatchedGemmHandle * CViewType nat * Result Z :=
  (h, Cv, Thrown "armpl").

(** [run] on the stand-in kernels of [Sample] from a given handle. *)
Definition call_with (mc : Macros) (i : Instantiation) (h : BatchedGemmHandle)
           (m n : N) : World nat * Result Z :=
  run Sample.serial Sample.dblbuf Sample.armpl Sample.ids mc i 1%Z tt tt 0%Z
    (initial_world h (Sample.C_of (ArgBatchSzDim i) m n)).

Definition both_layouts : EtiMacros :=
  {| KOKKOSKERNELS_INST_LAYOUTRIGHT := true;
     KOKKOSKERNELS_INST_LAYOUTLEFT := true |}.

Definition library_build : WrapperMacros :=
  {| KOKKOSKERNELS_IMPL_COMPILE_LIBRARY := true;
     KOKKOSKERNELS_ETI_ONLY := false;
     KOKKOSKERNELS_ENABLE_CHECK_SPECIALIZATION := true |}.

End MoreSamples.

(* ===================================================================== *)
(** ** Facts about [run]                                                  *)
(* ===================================================================== *)

Section HostLevelGemmFacts.

Context {ScalarType AViewType BViewType CData : Type}.

Variable BatchedSerialGemm_invoke :
  Trans.t -> Trans.t -> Algo.Gemm.t -> BatchLayout.t -> ResultsPerThread.t ->
  ScalarType -> AViewType -> BViewType -> ScalarType -> CViewType CData ->
  CViewType CData * Result Z.
Variable BatchedDblBufGemm_invoke :
  Trans.t -> Trans.t -> BatchLayout.t -> BoundsCheck.t -> AlphaTag.t ->
  Z -> Z -> Z ->
  BatchedGemmHandle -> ScalarType -> AViewType -> BViewType -> ScalarType ->
  CViewType CData -> BatchedGemmHandle * CViewType CData * Result Z.
Variable BatchedArmplGemm_invoke :
  Trans.t -> Trans.t -> BatchLayout.t ->
  BatchedGemmHandle -> ScalarType -> AViewType -> BViewType -> ScalarType ->
  CViewType CData -> BatchedGemmHandle * CViewType CData * Result Z.

Variable ids : KernelAlgoIds.
Variable mc : Macros.
Variable inst : Instantiation.

Variables (alpha : ScalarType) (A : AViewType) (B : BViewType)
          (beta : ScalarType).

Local Notation "'RUN'" :=
  (run BatchedSerialGemm_invoke BatchedDblBufGemm_invoke
       BatchedArmplGemm_invoke ids mc inst alpha A B beta).
Local Notation "'INVOKE' k" :=
  (invoke BatchedSerialGemm_invoke BatchedDblBufGemm_invoke
          BatchedArmplGemm_invoke inst k alpha A B beta)
  (at level 10, k at level 9).
Local Notation "'SQUARE_CASE' m n" :=
  (case_SQUARE BatchedSerialGemm_invoke BatchedDblBufGemm_invoke
               BatchedArmplGemm_invoke mc inst m n alpha A B beta)
  (at level 10, m at level 9, n at level 9).

Local Notation "'DBG' w" :=
  (with_debug (enableDebug (handle w))
     (DebugSpaces (is_vector inst) (on_gpu inst) (on_x86_64 inst)
        (on_a64fx inst)) w)
  (at level 10, w at level 9).

(** *** The kernel launcher *)

Lemma invoke_launched (k : Kernel) (w : World CData) :
  launched (fst (INVOKE k w))
  = launched w ++ [{| kernel := k; handle_at_launch := handle w |}].
Proof.
  unfold invoke. destruct k as [mode rpt | bc a tm tn tk | ].
  - destruct (BatchedSerialGemm_invoke _ _ _ _ _ _ _ _ _ _) as [C' r].
    reflexivity.
  - destruct (BatchedDblBufGemm_invoke _ _ _ _ _ _ _ _ _ _ _ _ _ _)
      as [[h' C'] r].
    reflexivity.
  - destruct (BatchedArmplGemm_invoke _ _ _ _ _ _ _ _ _) as [[h' C'] r].
    reflexivity.
Qed.

Lemma invoke_serial_handle (mode : Algo.Gemm.t) (rpt : ResultsPerThread.t)
      (w : World CData) :
  handle (fst (INVOKE (BatchedSerialGemm mode rpt) w)) = handle w.
Proof.
  unfold invoke.
  destruct (BatchedSerialGemm_invoke _ _ _ _ _ _ _ _ _ _) as [C' r].
  reflexivity.
Qed.

(** *** The rank check for SIMD value types *)

Lemma simd_rank_check_pass (w : World CData) :
  is_vector inst = false
  \/ existsb (Z.eqb (kernelAlgoType (handle w))) (simd_labels ids) = true ->
  simd_rank_check ids inst w = (w, Ok tt).
Proof.
  unfold simd_rank_check, simd_labels, bind, get_handle, ret. simpl.
  intros [Hv | Hl].
  - rewrite Hv. reflexivity.
  - destruct (is_vector inst); [ | reflexivity ].
    destruct (Z.eqb (kernelAlgoType (handle w)) (KK_SERIAL ids));
      [ reflexivity | ].
    destruct (Z.eqb (kernelAlgoType (handle w)) (SQUARE ids));
      [ reflexivity | ].
    destruct (Z.eqb (kernelAlgoType (handle w)) (ARMPL ids));
      [ reflexivity | discriminate Hl ].
Qed.

Lemma simd_rank_check_fail (w : World CData) :
  is_vector inst = true ->
  existsb (Z.eqb (kernelAlgoType (handle w))) (simd_labels ids) = false ->
  simd_rank_check ids inst w
  = (w, Thrown
          ("KokkosBatched::BatchedGemm does not support kernelAlgoType = "
             ++ to_string (kernelAlgoType (handle w))
             ++ " with SIMD views." ++ endl)%string).
Proof.
  unfold simd_rank_check, simd_labels, bind, get_handle, ret,
    throw_runtime_exception.
  intros Hv Hl. rewrite Hv. simpl in *.
  destruct (Z.eqb (kernelAlgoType (handle w)) (KK_SERIAL ids));
    [ discriminate Hl | ].
  destruct (Z.eqb (kernelAlgoType (handle w)) (SQUARE ids));
    [ discriminate Hl | ].
  destruct (Z.eqb (kernelAlgoType (handle w)) (ARMPL ids));
    [ discriminate Hl | reflexivity ].
Qed.

Lemma SQUARE_passes_rank_check (w : World CData) :
  kernelAlgoType (handle w) = SQUARE ids ->
  simd_rank_check ids inst w = (w, Ok tt).
Proof.
  intros Ha. apply simd_rank_check_pass. right.
  unfold simd_labels. simpl. rewrite Ha, Z.eqb_refl.
  now rewrite orb_true_r.
Qed.

(** *** Debug output leaves everything but [cout] alone *)

Lemma when_print (b : bool) (d : DebugOut) (w : World CData) :
  when CData b (print CData d) w = (with_debug b d w, Ok tt).
Proof. destruct b; reflexivity. Qed.

Lemma with_debug_handle (b : bool) (d : DebugOut) (w : World CData) :
  handle (with_debug b d w) = handle w.
Proof. destruct b; reflexivity. Qed.

Lemma with_debug_C (b : bool) (d : DebugOut) (w : World CData) :
  C (with_debug b d w) = C w.
Proof. destruct b; reflexivity. Qed.

Lemma with_debug_launched (b : bool) (d : DebugOut) (w : World CData) :
  launched (with_debug b d w) = launched w.
Proof. destruct b; reflexivity. Qed.

(** *** The three ways through [case SQUARE] *)

Lemma case_SQUARE_mismatch (m n : N) (w : World CData) :
  m <> n ->
  SQUARE_CASE m n w
  = (w, Thrown
          ("KokkosBatched::BatchedGemm does not support kernelAlgoType = "
             ++ to_string (kernelAlgoType (handle w)) ++ " when c_m("
             ++ to_string_size_t m ++ ") != c_n(" ++ to_string_size_t n
             ++ ")" ++ endl)%string).
Proof.
  intros Hne. apply N.eqb_neq in Hne.
  unfold case_SQUARE, bind, get_handle, when, throw_runtime_exception.
  rewrite Hne. reflexivity.
Qed.

Lemma case_SQUARE_tiled (m : N) (w : World CData) :
  on_gpu inst = true ->
  dblbuf_in_range inst m = true ->
  SQUARE_CASE m m w
  = INVOKE (BatchedDblBufGemm
              (if (m mod 32 =? 0)%N then BoundsCheck.No else BoundsCheck.Yes)
              (if (kk_gemm_dbl_buf_alpha_in_fma_thresh mc <=? m)%N
               then AlphaTag.Yes else AlphaTag.No)
              (kk_gemm_dlb_buf_tile_m (exec_space inst))
              (kk_gemm_dlb_buf_tile_n (exec_space inst))
              (kk_gemm_dlb_buf_tile_k mc (exec_space inst)))
           (with_tuning
              (with_debug (enableDebug (handle w))
                 (DebugSerialParams (bsgResultsPerThread inst)
                    (bsgModeType inst)) w)).
Proof.
  intros Hgpu Hrange.
  unfold case_SQUARE, bind, get_handle.
  rewrite N.eqb_refl. cbn [negb when ret].
  rewrite when_print, Hgpu, Hrange.
  set (w1 := with_debug _ _ w).
  unfold modify_handle. cbn [handle C cout launched].
  change {| handle := set_teamSz 8 (set_vecLen 8 (handle w1)); C := C w1;
            cout := cout w1; launched := launched w1 |}
    with (with_tuning w1).
  destruct (m mod 32 =? 0)%N;
    destruct (kk_gemm_dbl_buf_alpha_in_fma_thresh mc <=? m)%N;
    match goal with
    | |- context [invoke ?s ?d ?a ?i ?k ?al ?x ?y ?be ?w0] =>
        destruct (invoke s d a i k al x y be w0) as [w' [r | e]]
    end; reflexivity.
Qed.

Lemma case_SQUARE_serial (m : N) (w : World CData) :
  on_gpu inst = false \/ dblbuf_in_range inst m = false ->
  SQUARE_CASE m m w
  = INVOKE (BatchedSerialGemm (bsgModeType inst) (bsgResultsPerThread inst))
           (with_debug (enableDebug (handle w))
              (DebugSerialParams (bsgResultsPerThread inst)
                 (bsgModeType inst)) w).
Proof.
  intros Hcase.
  unfold case_SQUARE, bind, get_handle.
  rewrite N.eqb_refl. cbn [negb when ret].
  rewrite when_print.
  destruct (on_gpu inst) eqn:Hgpu.
  - destruct Hcase as [Hc | Hc]; [ discriminate Hc | ].
    rewrite Hc. reflexivity.
  - reflexivity.
Qed.

(** *** [run], case by case *)

Ltac enter_run :=
  unfold run, bind, get_C, get_handle;
  cbn [fst snd];
  destruct (ArgBatchSzDim inst) eqn:Hbl;
  rewrite when_print.

Lemma run_SQUARE (w : World CData) :
  kernelAlgoType (handle w) = SQUARE ids ->
  RUN w = SQUARE_CASE (c_m_of inst (C w)) (c_n_of inst (C w)) (DBG w).
Proof.
  intros Ha. unfold c_m_of, c_n_of.
  unfold run at 1. unfold bind at 1.
  rewrite (SQUARE_passes_rank_check w Ha).
  enter_run; cbn [switch app]; rewrite Ha, Z.eqb_refl; reflexivity.
Qed.

Lemma run_simd_reject (w : World CData) :
  is_vector inst = true ->
  existsb (Z.eqb (kernelAlgoType (handle w))) (simd_labels ids) = false ->
  RUN w
  = (w, Thrown
          ("KokkosBatched::BatchedGemm does not support kernelAlgoType = "
             ++ to_string (kernelAlgoType (handle w))
             ++ " with SIMD views." ++ endl)%string).
Proof.
  intros Hv Hl. unfold run at 1. unfold bind at 1.
  rewrite (simd_rank_check_fail w Hv Hl). reflexivity.
Qed.

Lemma run_default (w : World CData) :
  simd_rank_check ids inst w = (w, Ok tt) ->
  existsb (Z.eqb (kernelAlgoType (handle w))) (dispatch_labels ids mc)
  = false ->
  RUN w
  = (DBG w,
     Thrown
       ("KokkosBatched::BatchedGemm does not support kernelAlgoType = "
          ++ to_string (kernelAlgoType (handle w)) ++ "." ++ endl)%string).
Proof.
  intros Hchk Hl. unfold run at 1. unfold bind at 1. rewrite Hchk.
  unfold dispatch_labels in Hl.
  enter_run;
    destruct (ENABLE_TPL_ARMPL mc); cbn [switch app existsb] in *;
    repeat match goal with
           | |- context [Z.eqb ?a ?b] =>
               destruct (Z.eqb a b); [ discriminate Hl | ]
           end;
    reflexivity.
Qed.

Lemma run_KK_DBLBUF (w : World CData) :
  kernelAlgoType (handle w) = KK_DBLBUF ids ->
  labels_distinct ids = true ->
  is_vector inst = false ->
  RUN w
  = INVOKE (BatchedDblBufGemm BoundsCheck.Yes AlphaTag.No 1 1 1) (DBG w).
Proof.
  intros Ha Hd Hv. unfold run at 1. unfold bind at 1.
  rewrite (simd_rank_check_pass w (or_introl Hv)).
  unfold labels_distinct in Hd. cbn in Hd.
  repeat (apply andb_prop in Hd; destruct Hd as [? Hd]).
  repeat match goal with
         | H : negb _ = true |- _ => apply negb_true_iff in H
         | H : orb _ _ = false |- _ =>
             apply orb_false_elim in H; destruct H
         end.
  assert (E1 : Z.eqb (KK_DBLBUF ids) (SQUARE ids) = false)
    by (rewrite Z.eqb_sym; assumption).
  assert (E2 : Z.eqb (KK_DBLBUF ids) (ARMPL ids) = false)
    by (rewrite Z.eqb_sym; assumption).
  assert (E3 : Z.eqb (KK_DBLBUF ids) (KK_SERIAL ids) = false)
    by (rewrite Z.eqb_sym; assumption).
  assert (E4 : Z.eqb (KK_DBLBUF ids) (KK_SERIAL_RANK0 ids) = false)
    by (rewrite Z.eqb_sym; assumption).
  enter_run;
    destruct (ENABLE_TPL_ARMPL mc); cbn [switch app];
    rewrite Ha, ?E1, ?E2, ?E3, ?E4, Z.eqb_refl; reflexivity.
Qed.

Lemma simd_rank_check_cases (w : World CData) :
  simd_rank_check ids inst w = (w, Ok tt)
  \/ (is_vector inst = true
      /\ existsb (Z.eqb (kernelAlgoType (handle w))) (simd_labels ids)
         = false).
Proof.
  destruct (is_vector inst) eqn:Hv.
  - destruct (existsb (Z.eqb (kernelAlgoType (handle w))) (simd_labels ids))
      eqn:Hl.
    + left. apply simd_rank_check_pass. now right.
    + right. split; reflexivity.
  - left. apply simd_rank_check_pass. now left.
Qed.

(** Outside [case SQUARE] the dispatcher either throws or launches one
    kernel, in both cases without having touched the handle. *)
Lemma run_not_SQUARE (w : World CData) :
  Z.eqb (kernelAlgoType (handle w)) (SQUARE ids) = false ->
  (exists (msg : string) (w' : World CData),
      RUN w = (w', Thrown msg)
      /\ handle w' = handle w /\ C w' = C w /\ launched w' = launched w)
  \/ (exists k : Kernel, RUN w = INVOKE k (DBG w)).
Proof.
  intros Hsq.
  destruct (simd_rank_check_cases w) as [Hchk | [Hv Hl]].
  - destruct (RUN w) as [w' r] eqn:E.
    unfold run in E. unfold bind at 1 in E. rewrite Hchk in E.
    unfold bind, get_C, get_handle in E. cbn [fst snd] in E.
    destruct (ArgBatchSzDim inst); rewrite when_print in E;
      destruct (ENABLE_TPL_ARMPL mc); cbn [switch app] in E;
      rewrite Hsq in E;
      repeat match type of E with
             | context [Z.eqb ?a ?b] =>
                 destruct (Z.eqb a b);
                 [ right; eexists; symmetry; exact E | ]
             end;
      unfold throw_runtime_exception in E;
      injection E as <- <-;
      left; do 2 eexists;
      (split; [ reflexivity | ]);
      rewrite with_debug_handle, with_debug_C, with_debug_launched;
      auto.
  - left. rewrite (run_simd_reject w Hv Hl). do 2 eexists.
    split; [ reflexivity | auto ].
Qed.

(** What [case SQUARE] launches, from a world with an empty log. *)
Lemma run_SQUARE_launched (h : BatchedGemmHandle) (Cv : CViewType CData) :
  kernelAlgoType h = SQUARE ids ->
  launched (fst (RUN (initial_world h Cv)))
  = if negb (c_m_of inst Cv =? c_n_of inst Cv)%N then []
    else if on_gpu inst && dblbuf_in_range inst (c_m_of inst Cv) then
      [{| kernel :=
            BatchedDblBufGemm
              (if (c_m_of inst Cv mod 32 =? 0)%N
               then BoundsCheck.No else BoundsCheck.Yes)
              (if (kk_gemm_dbl_buf_alpha_in_fma_thresh mc
                   <=? c_m_of inst Cv)%N
               then AlphaTag.Yes else AlphaTag.No)
              32 32 (kk_gemm_dlb_buf_tile_k mc (exec_space inst));
          handle_at_launch := set_teamSz 8 (set_vecLen 8 h) |}]
    else
      [{| kernel :=
            BatchedSerialGemm (bsgModeType inst) (bsgResultsPerThread inst);
          handle_at_launch := h |}].
Proof.
  intros Ha.
  rewrite (run_SQUARE (initial_world h Cv) Ha).
  cbn [C handle initial_world].
  destruct (c_m_of inst Cv =? c_n_of inst Cv)%N eqn:Heq; cbn [negb].
  - apply N.eqb_eq in Heq. rewrite <- Heq.
    destruct (on_gpu inst) eqn:Hgpu;
      [ destruct (dblbuf_in_range inst (c_m_of inst Cv)) eqn:Hr | ];
      cbn [andb].
    + rewrite (case_SQUARE_tiled _ _ Hgpu Hr), invoke_launched.
      unfold with_tuning. cbn [launched handle].
      rewrite with_debug_launched, with_debug_handle, with_debug_launched,
        with_debug_handle.
      reflexivity.
    + rewrite (case_SQUARE_serial _ _ (or_intror Hr)), invoke_launched.
      rewrite !with_debug_launched, !with_debug_handle. reflexivity.
    + rewrite (case_SQUARE_serial _ _ (or_introl Hgpu)), invoke_launched.
      rewrite !with_debug_launched, !with_debug_handle. reflexivity.
  - apply N.eqb_neq in Heq.
    rewrite (case_SQUARE_mismatch _ _ _ Heq). cbn [fst].
    rewrite with_debug_launched. reflexivity.
Qed.

(** A double-buffered launch under [SQUARE] is fully determined. *)
Lemma SQUARE_tiled_launch_inv (h : BatchedGemmHandle) (Cv : CViewType CData)
      (l : Launch) :
  kernelAlgoType h = SQUARE ids ->
  In l (launched (fst (RUN (initial_world h Cv)))) ->
  is_DblBuf (kernel l) = true ->
  l = {| kernel :=
           BatchedDblBufGemm
             (if (c_m_of inst Cv mod 32 =? 0)%N
              then BoundsCheck.No else BoundsCheck.Yes)
             (if (kk_gemm_dbl_buf_alpha_in_fma_thresh mc
                  <=? c_m_of inst Cv)%N
              then AlphaTag.Yes else AlphaTag.No)
             32 32 (kk_gemm_dlb_buf_tile_k mc (exec_space inst));
         handle_at_launch := set_teamSz 8 (set_vecLen 8 h) |}
  /\ c_m_of inst Cv = c_n_of inst Cv
  /\ on_gpu inst = true
  /\ dblbuf_in_range inst (c_m_of inst Cv) = true.
Proof.
  intros Ha Hin Hk.
  rewrite (run_SQUARE_launched h Cv Ha) in Hin.
  destruct (c_m_of inst Cv =? c_n_of inst Cv)%N eqn:Heq; cbn [negb] in Hin;
    [ | contradiction Hin ].
  destruct (on_gpu inst) eqn:Hgpu;
    [ destruct (dblbuf_in_range inst (c_m_of inst Cv)) eqn:Hr | ];
    cbn [andb] in Hin;
    destruct Hin as [Hl | []]; subst l;
    try discriminate Hk.
  apply N.eqb_eq in Heq. auto.
Qed.

(** *** The dispatch properties *)

(** C1. A call with the [SQUARE] identifier whose output extents differ
    ([c_m], [c_n] read from [C] according to the batch layout) throws a
    runtime error whose message spells out both [c_m] and [c_n]; no
    kernel is launched and neither [C] nor the handle is changed. *)
Theorem square_rejects_nonsquare_output
        (h : BatchedGemmHandle) (Cv : CViewType CData) :
  kernelAlgoType h = SQUARE ids ->
  c_m_of inst Cv <> c_n_of inst Cv ->
  snd (RUN (initial_world h Cv))
  = Thrown
      ("KokkosBatched::BatchedGemm does not support kernelAlgoType = "
         ++ to_string (SQUARE ids) ++ " when c_m("
         ++ to_string_size_t (c_m_of inst Cv) ++ ") != c_n("
         ++ to_string_size_t (c_n_of inst Cv) ++ ")" ++ endl)%string
  /\ launched (fst (RUN (initial_world h Cv))) = []
  /\ C (fst (RUN (initial_world h Cv))) = Cv
  /\ handle (fst (RUN (initial_world h Cv))) = h.
Proof.
  intros Ha Hne.
  rewrite (run_SQUARE (initial_world h Cv) Ha).
  cbn [C handle initial_world].
  rewrite (case_SQUARE_mismatch _ _ _ Hne). cbn [fst snd].
  rewrite with_debug_handle, with_debug_launched, with_debug_C.
  cbn [C handle launched initial_world]. rewrite Ha. auto.
Qed.

(** C2 (amended). Under [SQUARE] on a GPU backend with a square output,
    the double-buffered kernel is launched exactly when [c_m >= 16] for
    [LayoutLeft] storage, and exactly when [24 <= c_m <= 32] or
    [c_m >= 40] for any other storage layout; in every other case the
    serial kernel is launched with the heuristic's mode and
    results-per-thread parameters. *)
Theorem square_gpu_tiled_range
        (h : BatchedGemmHandle) (Cv : CViewType CData) :
  kernelAlgoType h = SQUARE ids ->
  on_gpu inst = true ->
  c_m_of inst Cv = c_n_of inst Cv ->
  (match layout_type inst with
   | LayoutLeft => (16 <= c_m_of inst Cv)%N
   | _ => ((24 <= c_m_of inst Cv)%N /\ (c_m_of inst Cv <= 32)%N)
          \/ (40 <= c_m_of inst Cv)%N
   end ->
   exists bc a tk,
     map kernel (launched (fst (RUN (initial_world h Cv))))
     = [BatchedDblBufGemm bc a 32 32 tk])
  /\ (~ match layout_type inst with
        | LayoutLeft => (16 <= c_m_of inst Cv)%N
        | _ => ((24 <= c_m_of inst Cv)%N /\ (c_m_of inst Cv <= 32)%N)
               \/ (40 <= c_m_of inst Cv)%N
        end ->
      map kernel (launched (fst (RUN (initial_world h Cv))))
      = [BatchedSerialGemm (bsgModeType inst) (bsgResultsPerThread inst)]).
Proof.
  intros Ha Hgpu Hsq.
  rewrite (run_SQUARE_launched h Cv Ha).
  apply N.eqb_eq in Hsq. rewrite Hsq, Hgpu. cbn [negb andb].
  unfold dblbuf_in_range.
  split; intros Hr.
  - assert (Hb : match layout_type inst with
                 | LayoutLeft => (16 <=? c_m_of inst Cv)%N
                 | _ => ((24 <=? c_m_of inst Cv)%N
                         && (c_m_of inst Cv <=? 32)%N)
                        || (40 <=? c_m_of inst Cv)%N
                 end = true).
    { destruct (layout_type inst);
        rewrite ?orb_true_iff, ?andb_true_iff, ?N.leb_le; exact Hr. }
    rewrite Hb. do 3 eexists. reflexivity.
  - assert (Hb : match layout_type inst with
                 | LayoutLeft => (16 <=? c_m_of inst Cv)%N
                 | _ => ((24 <=? c_m_of inst Cv)%N
                         && (c_m_of inst Cv <=? 32)%N)
                        || (40 <=? c_m_of inst Cv)%N
                 end = false).
    { apply not_true_is_false. intros Hb. apply Hr.
      destruct (layout_type inst);
        rewrite ?orb_true_iff, ?andb_true_iff, ?N.leb_le in Hb; exact Hb. }
    rewrite Hb. reflexivity.
Qed.

(** C3 (amended). When [SQUARE] launches the double-buffered kernel, its
    tile dimensions are [tile_m = 32], [tile_n = 32] and [tile_k = 8],
    except that for the HIP execution space built with
    [KOKKOS_ENABLE_HIP] and [KOKKOS_ARCH_VEGA908] the K tile is 16 (twice
    the default) while [tile_m] and [tile_n] stay 32. *)
Theorem square_tile_dimensions
        (h : BatchedGemmHandle) (Cv : CViewType CData)
        (bc : BoundsCheck.t) (a : AlphaTag.t) (tm tn tk : Z)
        (h' : BatchedGemmHandle) :
  kernelAlgoType h = SQUARE ids ->
  In {| kernel := BatchedDblBufGemm bc a tm tn tk; handle_at_launch := h' |}
     (launched (fst (RUN (initial_world h Cv)))) ->
  tm = 32%Z /\ tn = 32%Z
  /\ (exec_space inst = Experimental_HIP /\ KOKKOS_ENABLE_HIP mc = true
      /\ KOKKOS_ARCH_VEGA908 mc = true -> tk = 16%Z)
  /\ (~ (exec_space inst = Experimental_HIP /\ KOKKOS_ENABLE_HIP mc = true
         /\ KOKKOS_ARCH_VEGA908 mc = true) -> tk = 8%Z).
Proof.
  intros Ha Hin.
  destruct (SQUARE_tiled_launch_inv h Cv _ Ha Hin eq_refl) as [Hl _].
  injection Hl as _ _ -> -> -> _.
  unfold kk_gemm_dlb_buf_tile_k.
  repeat split; auto.
  - intros (-> & -> & ->). reflexivity.
  - intros Hn. destruct (exec_space inst); [ | reflexivity ].
    destruct (KOKKOS_ENABLE_HIP mc); [ | reflexivity ].
    destruct (KOKKOS_ARCH_VEGA908 mc); [ | reflexivity ].
    exfalso. apply Hn. auto.
Qed.

(** C4. When [SQUARE] launches the double-buffered kernel, the
    instantiation without bounds checks is the one launched if and only
    if [c_m] is a multiple of 32, the row tile dimension; otherwise it
    is the bounds-checked one. *)
Theorem square_bounds_check_mode
        (h : BatchedGemmHandle) (Cv : CViewType CData)
        (bc : BoundsCheck.t) (a : AlphaTag.t) (tm tn tk : Z)
        (h' : BatchedGemmHandle) :
  kernelAlgoType h = SQUARE ids ->
  In {| kernel := BatchedDblBufGemm bc a tm tn tk; handle_at_launch := h' |}
     (launched (fst (RUN (initial_world h Cv)))) ->
  tm = 32%Z
  /\ (bc = BoundsCheck.No <-> (c_m_of inst Cv mod 32 = 0)%N)
  /\ (bc = BoundsCheck.Yes <-> (c_m_of inst Cv mod 32 <> 0)%N).
Proof.
  intros Ha Hin.
  destruct (SQUARE_tiled_launch_inv h Cv _ Ha Hin eq_refl) as [Hl _].
  injection Hl as -> _ -> _ _ _.
  split; [ reflexivity | ].
  destruct (c_m_of inst Cv mod 32 =? 0)%N eqn:Hm.
  - apply N.eqb_eq in Hm.
    split; split; intros H; try reflexivity; try assumption;
      try discriminate H.
    contradiction.
  - apply N.eqb_neq in Hm.
    split; split; intros H; try reflexivity; try assumption;
      try discriminate H.
    contradiction.
Qed.

(** C5. When [SQUARE] launches the double-buffered kernel, alpha is
    applied inside the fma ([AlphaTag::Yes]) if and only if [c_m] is at
    least the threshold, which is 24 when [__CUDACC_RDC__] is defined
    and 64 otherwise; below the threshold alpha is applied by a separate
    multiplication ([AlphaTag::No]). *)
Theorem square_alpha_in_fma
        (h : BatchedGemmHandle) (Cv : CViewType CData)
        (bc : BoundsCheck.t) (a : AlphaTag.t) (tm tn tk : Z)
        (h' : BatchedGemmHandle) :
  kernelAlgoType h = SQUARE ids ->
  In {| kernel := BatchedDblBufGemm bc a tm tn tk; handle_at_launch := h' |}
     (launched (fst (RUN (initial_world h Cv)))) ->
  (a = AlphaTag.Yes
   <-> ((if CUDACC_RDC mc then 24 else 64) <= c_m_of inst Cv)%N)
  /\ (a = AlphaTag.No
      <-> (c_m_of inst Cv < (if CUDACC_RDC mc then 24 else 64))%N).
Proof.
  intros Ha Hin.
  destruct (SQUARE_tiled_launch_inv h Cv _ Ha Hin eq_refl) as [Hl _].
  injection Hl as _ -> _ _ _ _.
  unfold kk_gemm_dbl_buf_alpha_in_fma_thresh.
  destruct ((if CUDACC_RDC mc then 24 else 64) <=? c_m_of inst Cv)%N eqn:Ht.
  - apply N.leb_le in Ht.
    split; split; intros H; try reflexivity; try assumption;
      try discriminate H.
    lia.
  - apply N.leb_gt in Ht.
    split; split; intros H; try reflexivity; try assumption;
      try discriminate H.
    lia.
Qed.

(** C6. A call whose algorithm identifier is not recognized for the
    instantiation -- in particular, for views of SIMD value type, any
    identifier other than [KK_SERIAL], [SQUARE] and [ARMPL] -- throws a
    runtime error whose message contains the identifier in decimal; no
    kernel is launched and neither [C] nor the handle is changed. *)
Theorem unrecognized_algo_rejected
        (h : BatchedGemmHandle) (Cv : CViewType CData) :
  recognized ids mc inst (kernelAlgoType h) = false
  \/ (is_vector inst = true
      /\ kernelAlgoType h <> KK_SERIAL ids
      /\ kernelAlgoType h <> SQUARE ids
      /\ kernelAlgoType h <> ARMPL ids) ->
  (exists suffix : string,
      snd (RUN (initial_world h Cv))
      = Thrown
          ("KokkosBatched::BatchedGemm does not support kernelAlgoType = "
             ++ to_string (kernelAlgoType h) ++ suffix)%string
      /\ (is_vector inst = true ->
          existsb (Z.eqb (kernelAlgoType h)) (simd_labels ids) = false ->
          suffix = (" with SIMD views." ++ endl)%string))
  /\ launched (fst (RUN (initial_world h Cv))) = []
  /\ C (fst (RUN (initial_world h Cv))) = Cv
  /\ handle (fst (RUN (initial_world h Cv))) = h.
Proof.
  intros Hcase.
  assert (Hrec : recognized ids mc inst (kernelAlgoType h) = false).
  { destruct Hcase as [Hr | (Hv & H1 & H2 & H3)]; [ exact Hr | ].
    unfold recognized, simd_labels. rewrite Hv. cbn [existsb].
    apply Z.eqb_neq in H1, H2, H3. rewrite H1, H2, H3. reflexivity. }
  clear Hcase. unfold recognized in Hrec.
  set (w := initial_world h Cv).
  change (kernelAlgoType h) with (kernelAlgoType (handle w)) in *.
  destruct (simd_rank_check_cases w) as [Hchk | [Hv Hl]].
  - assert (Hd : existsb (Z.eqb (kernelAlgoType (handle w)))
                   (dispatch_labels ids mc) = false).
    { destruct (is_vector inst) eqn:Hv.
      - destruct (existsb (Z.eqb (kernelAlgoType (handle w)))
                    (simd_labels ids)) eqn:Hl.
        + exact Hrec.
        + rewrite (simd_rank_check_fail w Hv Hl) in Hchk.
          discriminate Hchk.
      - exact Hrec. }
    rewrite (run_default w Hchk Hd). cbn [fst snd].
    rewrite with_debug_launched, with_debug_C, with_debug_handle.
    split; [ | auto ].
    eexists. split; [ reflexivity | ].
    intros Hv Hl. rewrite (simd_rank_check_fail w Hv Hl) in Hchk.
    discriminate Hchk.
  - rewrite (run_simd_reject w Hv Hl). cbn [fst snd].
    split; [ | auto ].
    eexists. split; [ reflexivity | ]. reflexivity.
Qed.

(** C9. When [SQUARE] takes the tiled path (a square output on a GPU
    whose [c_m] is in the accepted range), the call is the
    double-buffered kernel's [invoke()] started on the caller's [C] with
    the handle's [teamSz] and [vecLen] both set to 8 and nothing else
    changed. On every other path the dispatcher either throws with the
    handle as the caller passed it, or the call is one kernel's
    [invoke()] started with the handle as the caller passed it. In both
    cases the call is exactly that [invoke()]: the dispatcher writes
    nothing to the handle after the kernel, so the handle at the end is
    what the kernel leaves, and the caller's when the kernel does not
    hold the handle pointer. *)
Theorem handle_tuning_only_on_square_tiled_path
        (h : BatchedGemmHandle) (Cv : CViewType CData) :
  (kernelAlgoType h = SQUARE ids ->
   c_m_of inst Cv = c_n_of inst Cv ->
   on_gpu inst = true ->
   dblbuf_in_range inst (c_m_of inst Cv) = true ->
   exists (k : Kernel) (w1 : World CData),
     is_DblBuf k = true
     /\ RUN (initial_world h Cv) = INVOKE k w1
     /\ handle w1
        = {| kernelAlgoType := kernelAlgoType h; teamSz := 8; vecLen := 8;
             enableDebug := enableDebug h |}
     /\ C w1 = Cv
     /\ launched w1 = [])
  /\ (~ (kernelAlgoType h = SQUARE ids
         /\ c_m_of inst Cv = c_n_of inst Cv
         /\ on_gpu inst = true
         /\ dblbuf_in_range inst (c_m_of inst Cv) = true) ->
      (exists (msg : string) (w' : World CData),
          RUN (initial_world h Cv) = (w', Thrown msg)
          /\ handle w' = h /\ C w' = Cv /\ launched w' = [])
      \/ (exists (k : Kernel) (w1 : World CData),
             RUN (initial_world h Cv) = INVOKE k w1
             /\ handle w1 = h
             /\ C w1 = Cv
             /\ launched w1 = []
             /\ (takes_handle k = false ->
                 handle (fst (RUN (initial_world h Cv))) = h))).
Proof.
  set (w := initial_world h Cv).
  split.
  - intros Ha Heq Hgpu Hr.
    rewrite (run_SQUARE w Ha). cbn [C handle w initial_world]. fold w.
    rewrite <- Heq, (case_SQUARE_tiled _ _ Hgpu Hr).
    do 2 eexists. split; [ | split; [ reflexivity | ] ].
    + reflexivity.
    + unfold with_tuning. cbn [handle C launched].
      rewrite !with_debug_handle, !with_debug_C, !with_debug_launched.
      repeat split.
  - intros Hnot.
    destruct (Z.eqb (kernelAlgoType (handle w)) (SQUARE ids)) eqn:Hsq.
    + apply Z.eqb_eq in Hsq.
      rewrite (run_SQUARE w Hsq). cbn [C handle w initial_world]. fold w.
      destruct (N.eq_dec (c_m_of inst Cv) (c_n_of inst Cv)) as [Heq | Hne].
      * assert (Hcase : on_gpu inst = false
                        \/ dblbuf_in_range inst (c_m_of inst Cv) = false).
        { destruct (on_gpu inst); [ | now left ].
          destruct (dblbuf_in_range inst (c_m_of inst Cv)); [ | now right ].
          exfalso. apply Hnot. auto. }
        right. rewrite <- Heq, (case_SQUARE_serial _ _ Hcase).
        do 2 eexists. split; [ reflexivity | ].
        rewrite invoke_serial_handle.
        rewrite !with_debug_handle, !with_debug_C, !with_debug_launched.
        repeat split.
      * left. rewrite (case_SQUARE_mismatch _ _ _ Hne).
        do 2 eexists. split; [ reflexivity | ].
        rewrite with_debug_handle, with_debug_C, with_debug_launched.
        repeat split.
    + destruct (run_not_SQUARE w Hsq)
        as [(msg & w' & E & Hh & HC & Hl) | (k & E)].
      * left. exists msg, w'. auto.
      * right. exists k. eexists. split; [ exact E | ].
        rewrite with_debug_handle, with_debug_C, with_debug_launched.
        repeat split.
        intros Hk. rewrite E.
        destruct k as [mode rpt | ? ? ? ? ? | ]; try discriminate Hk.
        rewrite invoke_serial_handle, with_debug_handle. reflexivity.
Qed.

(** C10 (amended). When [KK_DBLBUF] is requested and the view value type
    is not a SIMD type, the call launches the double-buffered kernel
    with tiles 1x1x1, bounds checking on and alpha applied by a separate
    multiplication, with the handle untouched, whatever the extents,
    the storage layout and the backend. *)
Theorem explicit_dblbuf_instantiation
        (h : BatchedGemmHandle) (Cv : CViewType CData) :
  kernelAlgoType h = KK_DBLBUF ids ->
  labels_distinct ids = true ->
  is_vector inst = false ->
  launched (fst (RUN (initial_world h Cv)))
  = [{| kernel := BatchedDblBufGemm BoundsCheck.Yes AlphaTag.No 1 1 1;
        handle_at_launch := h |}].
Proof.
  intros Ha Hd Hv.
  rewrite (run_KK_DBLBUF (initial_world h Cv) Ha Hd Hv), invoke_launched.
  rewrite with_debug_launched, with_debug_handle. reflexivity.
Qed.

(** *** Further facts: every path through [run] *)

Lemma invoke_cout (k : Kernel) (w : World CData) :
  cout (fst (INVOKE k w)) = cout w.
Proof.
  unfold invoke. destruct k as [mode rpt | bc a tm tn tk | ].
  - destruct (BatchedSerialGemm_invoke _ _ _ _ _ _ _ _ _ _) as [C' r].
    reflexivity.
  - destruct (BatchedDblBufGemm_invoke _ _ _ _ _ _ _ _ _ _ _ _ _ _)
      as [[h' C'] r].
    reflexivity.
  - destruct (BatchedArmplGemm_invoke _ _ _ _ _ _ _ _ _) as [[h' C'] r].
    reflexivity.
Qed.

Lemma with_debug_cout (b : bool) (d : DebugOut) (w : World CData) :
  cout (with_debug b d w) = cout w ++ (if b then [d] else []).
Proof. destruct b; cbn; [ reflexivity | now rewrite app_nil_r ]. Qed.

Lemma labels_distinct_neq :
  labels_distinct ids = true ->
  SQUARE ids <> ARMPL ids /\ SQUARE ids <> KK_SERIAL ids
  /\ SQUARE ids <> KK_SERIAL_RANK0 ids /\ SQUARE ids <> KK_DBLBUF ids
  /\ ARMPL ids <> KK_SERIAL ids /\ ARMPL ids <> KK_SERIAL_RANK0 ids
  /\ ARMPL ids <> KK_DBLBUF ids
  /\ KK_SERIAL ids <> KK_SERIAL_RANK0 ids /\ KK_SERIAL ids <> KK_DBLBUF ids
  /\ KK_SERIAL_RANK0 ids <> KK_DBLBUF ids.
Proof.
  unfold labels_distinct. cbn. intros Hd.
  repeat (apply andb_prop in Hd; destruct Hd as [? Hd]).
  repeat match goal with
         | H : negb _ = true |- _ => apply negb_true_iff in H
         | H : orb _ _ = false |- _ => apply orb_false_elim in H; destruct H
         | H : Z.eqb _ _ = false |- _ => apply Z.eqb_neq in H
         end.
  repeat split; assumption.
Qed.

(** Decide every label comparison in the goal from known (dis)equalities. *)
Ltac decide_labels :=
  repeat match goal with
         | |- context [Z.eqb ?a ?b] =>
             first
               [ rewrite (Z.eqb_refl a)
               | let H := fresh in
                 assert (H : Z.eqb a b = false)
                   by (apply Z.eqb_neq; congruence);
                 rewrite H; clear H ]
         end.

(** Once the rank check has passed, [run] is its dispatch [switch]. *)
Lemma run_checked (w : World CData) :
  simd_rank_check ids inst w = (w, Ok tt) ->
  RUN w
  = switch (kernelAlgoType (handle w))
      ([ (SQUARE ids, SQUARE_CASE (c_m_of inst (C w)) (c_n_of inst (C w))) ]
       ++ (if ENABLE_TPL_ARMPL mc
           then [ (ARMPL ids, INVOKE BatchedArmplGemm) ] else [])
       ++ [ (KK_SERIAL ids,
             INVOKE (BatchedSerialGemm Algo.Gemm.Unblocked
                       ResultsPerThread.Rank2));
            (KK_SERIAL_RANK0 ids,
             INVOKE (BatchedSerialGemm Algo.Gemm.Unblocked
                       ResultsPerThread.Rank0));
            (KK_DBLBUF ids,
             INVOKE (BatchedDblBufGemm BoundsCheck.Yes AlphaTag.No 1 1 1)) ])
      (throw_runtime_exception CData
         ("KokkosBatched::BatchedGemm does not support kernelAlgoType = "
            ++ to_string (kernelAlgoType (handle w)) ++ "." ++ endl)%string)
      (DBG w).
Proof.
  intros Hchk. unfold c_m_of, c_n_of.
  unfold run at 1. unfold bind at 1. rewrite Hchk.
  enter_run; reflexivity.
Qed.

Lemma case_SQUARE_launched (m n : N) (w : World CData) :
  launched (fst (SQUARE_CASE m n w))
  = launched w
    ++ (if negb (m =? n)%N then []
        else if on_gpu inst && dblbuf_in_range inst m then
          [{| kernel :=
                BatchedDblBufGemm
                  (if (m mod 32 =? 0)%N
                   then BoundsCheck.No else BoundsCheck.Yes)
                  (if (kk_gemm_dbl_buf_alpha_in_fma_thresh mc <=? m)%N
                   then AlphaTag.Yes else AlphaTag.No)
                  (kk_gemm_dlb_buf_tile_m (exec_space inst))
                  (kk_gemm_dlb_buf_tile_n (exec_space inst))
                  (kk_gemm_dlb_buf_tile_k mc (exec_space inst));
              handle_at_launch := set_teamSz 8 (set_vecLen 8 (handle w)) |}]
        else
          [{| kernel :=
                BatchedSerialGemm (bsgModeType inst) (bsgResultsPerThread inst);
              handle_at_launch := handle w |}]).
Proof.
  destruct (m =? n)%N eqn:Heq; cbn [negb].
  - apply N.eqb_eq in Heq. subst n.
    destruct (on_gpu inst) eqn:Hgpu;
      [ destruct (dblbuf_in_range inst m) eqn:Hr | ]; cbn [andb].
    + rewrite (case_SQUARE_tiled _ _ Hgpu Hr), invoke_launched.
      unfold with_tuning. cbn [launched handle].
      now rewrite with_debug_launched, with_debug_handle.
    + rewrite (case_SQUARE_serial _ _ (or_intror Hr)), invoke_launched.
      now rewrite with_debug_launched, with_debug_handle.
    + rewrite (case_SQUARE_serial _ _ (or_introl Hgpu)), invoke_launched.
      now rewrite with_debug_launched, with_debug_handle.
  - apply N.eqb_neq in Heq.
    rewrite (case_SQUARE_mismatch _ _ _ Heq). cbn [fst].
    now rewrite app_nil_r.
Qed.

Lemma case_SQUARE_cout (m n : N) (w : World CData) :
  cout (fst (SQUARE_CASE m n w))
  = cout w
    ++ (if enableDebug (handle w) && (m =? n)%N
        then [DebugSerialParams (bsgResultsPerThread inst) (bsgModeType inst)]
        else []).
Proof.
  destruct (m =? n)%N eqn:Heq.
  - apply N.eqb_eq in Heq. subst n. rewrite andb_true_r.
    destruct (on_gpu inst) eqn:Hgpu;
      [ destruct (dblbuf_in_range inst m) eqn:Hr | ].
    + rewrite (case_SQUARE_tiled _ _ Hgpu Hr), invoke_cout.
      unfold with_tuning. cbn [cout]. apply with_debug_cout.
    + rewrite (case_SQUARE_serial _ _ (or_intror Hr)), invoke_cout.
      apply with_debug_cout.
    + rewrite (case_SQUARE_serial _ _ (or_introl Hgpu)), invoke_cout.
      apply with_debug_cout.
  - apply N.eqb_neq in Heq.
    rewrite (case_SQUARE_mismatch _ _ _ Heq). cbn [fst].
    now rewrite andb_false_r, app_nil_r.
Qed.

(** The launch log of a call is the table's entry. *)
Lemma run_selected (h : BatchedGemmHandle) (Cv : CViewType CData) :
  map kernel (launched (fst (RUN (initial_world h Cv))))
  = selected_kernel ids mc inst (kernelAlgoType h)
      (c_m_of inst Cv) (c_n_of inst Cv).
Proof.
  set (w := initial_world h Cv).
  unfold selected_kernel.
  change (kernelAlgoType h) with (kernelAlgoType (handle w)).
  destruct (simd_rank_check_cases w) as [Hchk | [Hv Hl]].
  - assert (Hgate : is_vector inst
                    && negb (existsb (Z.eqb (kernelAlgoType (handle w)))
                               (simd_labels ids)) = false).
    { destruct (is_vector inst) eqn:Hv; [ | reflexivity ].
      destruct (existsb (Z.eqb (kernelAlgoType (handle w))) (simd_labels ids))
        eqn:Hl; [ reflexivity | ].
      rewrite (simd_rank_check_fail w Hv Hl) in Hchk. discriminate Hchk. }
    rewrite Hgate, (run_checked w Hchk).
    destruct (ENABLE_TPL_ARMPL mc); cbn [switch app];
      repeat match goal with
             | |- context [Z.eqb ?a ?b] => destruct (Z.eqb a b)
             end;
      unfold throw_runtime_exception; cbn [fst];
      rewrite ?case_SQUARE_launched, ?invoke_launched, ?with_debug_launched;
      cbn [launched w initial_world app C map];
      try reflexivity;
      destruct (negb (c_m_of inst Cv =? c_n_of inst Cv)%N);
      try reflexivity;
      destruct (on_gpu inst && dblbuf_in_range inst (c_m_of inst Cv));
      reflexivity.
  - rewrite Hv, Hl, (run_simd_reject w Hv Hl). reflexivity.
Qed.

(** A call either throws in the dispatcher, nothing launched and nothing
    changed, or it is one kernel's [invoke()] on the caller's [C]. *)
Lemma run_outcome_cases (h : BatchedGemmHandle) (Cv : CViewType CData) :
  (exists (msg : string) (w' : World CData),
      RUN (initial_world h Cv) = (w', Thrown msg)
      /\ launched w' = [] /\ C w' = Cv /\ handle w' = h)
  \/ (exists (k : Kernel) (w1 : World CData),
         RUN (initial_world h Cv) = INVOKE k w1
         /\ launched w1 = [] /\ C w1 = Cv
         /\ (handle w1 = h \/ handle w1 = set_teamSz 8 (set_vecLen 8 h))).
Proof.
  set (w := initial_world h Cv).
  destruct (Z.eqb (kernelAlgoType (handle w)) (SQUARE ids)) eqn:Hsq.
  - apply Z.eqb_eq in Hsq. rewrite (run_SQUARE w Hsq).
    cbn [C handle w initial_world]. fold w.
    destruct (N.eq_dec (c_m_of inst Cv) (c_n_of inst Cv)) as [Heq | Hne].
    + rewrite <- Heq. right.
      destruct (on_gpu inst) eqn:Hgpu;
        [ destruct (dblbuf_in_range inst (c_m_of inst Cv)) eqn:Hr | ].
      * rewrite (case_SQUARE_tiled _ _ Hgpu Hr). do 2 eexists.
        split; [ reflexivity | ]. unfold with_tuning. cbn [launched C handle].
        rewrite !with_debug_launched, !with_debug_C, !with_debug_handle.
        auto.
      * rewrite (case_SQUARE_serial _ _ (or_intror Hr)). do 2 eexists.
        split; [ reflexivity | ].
        rewrite !with_debug_launched, !with_debug_C, !with_debug_handle.
        auto.
      * rewrite (case_SQUARE_serial _ _ (or_introl Hgpu)). do 2 eexists.
        split; [ reflexivity | ].
        rewrite !with_debug_launched, !with_debug_C, !with_debug_handle.
        auto.
    + left. rewrite (case_SQUARE_mismatch _ _ _ Hne). do 2 eexists.
      split; [ reflexivity | ].
      rewrite with_debug_launched, with_debug_C, with_debug_handle. auto.
  - destruct (run_not_SQUARE w Hsq)
      as [(msg & w' & E & Hh & HC & Hl) | (k & E)].
    + left. exists msg, w'. auto.
    + right. exists k. eexists. split; [ exact E | ].
      rewrite with_debug_launched, with_debug_C, with_debug_handle. auto.
Qed.

(** *** Further properties of the dispatch *)

(** X1. A call launches at most one kernel. Either the dispatcher itself
    throws, with nothing launched and [C] and the handle as the caller
    passed them, or exactly one kernel is launched and the outcome of the
    call (return value or exception, final [C]) is the outcome of that
    kernel's [invoke()] on the caller's [C]: the initial [ret = 0] is
    never what a call returns. *)
Theorem one_kernel_or_dispatch_error
        (h : BatchedGemmHandle) (Cv : CViewType CData) :
  (launched (fst (RUN (initial_world h Cv))) = []
   /\ (exists msg : string, snd (RUN (initial_world h Cv)) = Thrown msg)
   /\ C (fst (RUN (initial_world h Cv))) = Cv
   /\ handle (fst (RUN (initial_world h Cv))) = h)
  \/ (exists (k : Kernel) (w1 : World CData),
         launched (fst (RUN (initial_world h Cv)))
         = [{| kernel := k; handle_at_launch := handle w1 |}]
         /\ RUN (initial_world h Cv) = INVOKE k w1
         /\ C w1 = Cv
         /\ launched w1 = []).
Proof.
  destruct (run_outcome_cases h Cv)
    as [(msg & w' & E & Hl & HC & Hh) | (k & w1 & E & Hl & HC & _)].
  - left. rewrite E. cbn [fst snd]. repeat split; eauto.
  - right. exists k, w1. rewrite E, invoke_launched, Hl. auto.
Qed.

(** X2. What [run] itself writes to [std::cout]: nothing when
    [enableDebug] is off, and nothing when the rank check for SIMD value
    types rejects the identifier (it comes before the first print).
    Otherwise the line on the execution space comes first, followed by
    the line on the serial parameters exactly when the identifier is
    [SQUARE] and the output is square. *)
Theorem dispatcher_debug_output
        (h : BatchedGemmHandle) (Cv : CViewType CData) :
  cout (fst (RUN (initial_world h Cv)))
  = if enableDebug h
       && negb (is_vector inst
                && negb (existsb (Z.eqb (kernelAlgoType h)) (simd_labels ids)))
    then
      DebugSpaces (is_vector inst) (on_gpu inst) (on_x86_64 inst)
        (on_a64fx inst)
      :: (if Z.eqb (kernelAlgoType h) (SQUARE ids)
             && (c_m_of inst Cv =? c_n_of inst Cv)%N
          then [DebugSerialParams (bsgResultsPerThread inst) (bsgModeType inst)]
          else [])
    else [].
Proof.
  set (w := initial_world h Cv).
  change (kernelAlgoType h) with (kernelAlgoType (handle w)).
  change (enableDebug h) with (enableDebug (handle w)).
  destruct (simd_rank_check_cases w) as [Hchk | [Hv Hl]].
  - assert (Hgate : is_vector inst
                    && negb (existsb (Z.eqb (kernelAlgoType (handle w)))
                               (simd_labels ids)) = false).
    { destruct (is_vector inst) eqn:Hv; [ | reflexivity ].
      destruct (existsb (Z.eqb (kernelAlgoType (handle w))) (simd_labels ids))
        eqn:Hl; [ reflexivity | ].
      rewrite (simd_rank_check_fail w Hv Hl) in Hchk. discriminate Hchk. }
    rewrite Hgate, andb_true_r.
    destruct (Z.eqb (kernelAlgoType (handle w)) (SQUARE ids)) eqn:Hsq.
    + apply Z.eqb_eq in Hsq. rewrite (run_SQUARE w Hsq), case_SQUARE_cout.
      rewrite with_debug_cout, with_debug_handle.
      cbn [cout C handle w initial_world app andb].
      destruct (enableDebug h); reflexivity.
    + assert (Hc : cout (fst (RUN w)) = cout (DBG w)).
      { rewrite (run_checked w Hchk).
        destruct (ENABLE_TPL_ARMPL mc); cbn [switch app]; rewrite Hsq;
          repeat match goal with
                 | |- context [Z.eqb ?a ?b] => destruct (Z.eqb a b)
                 end;
          rewrite ?invoke_cout; reflexivity. }
      rewrite Hc, with_debug_cout. cbn [cout handle w initial_world app andb].
      destruct (enableDebug h); reflexivity.
  - rewrite (run_simd_reject w Hv Hl), Hv, Hl. cbn [fst negb andb].
    rewrite andb_false_r. reflexivity.
Qed.

(** X3. On a backend that is not a GPU, [SQUARE] with a square output
    always runs the serial kernel, whatever the size: results per thread
    [Rank2]; mode [Blocked] for SIMD value types on x86-64 and for scalar
    value types off A64FX, [Unblocked] otherwise. The handle is never
    written. *)
Theorem square_on_host_is_serial
        (h : BatchedGemmHandle) (Cv : CViewType CData) :
  kernelAlgoType h = SQUARE ids ->
  on_gpu inst = false ->
  c_m_of inst Cv = c_n_of inst Cv ->
  (exists w1 : World CData,
      RUN (initial_world h Cv)
      = INVOKE (BatchedSerialGemm
                  (if is_vector inst
                   then (if on_x86_64 inst
                         then Algo.Gemm.Blocked else Algo.Gemm.Unblocked)
                   else (if on_a64fx inst
                         then Algo.Gemm.Unblocked else Algo.Gemm.Blocked))
                  ResultsPerThread.Rank2) w1
      /\ handle w1 = h /\ C w1 = Cv /\ launched w1 = [])
  /\ handle (fst (RUN (initial_world h Cv))) = h.
Proof.
  intros Ha Hgpu Heq.
  rewrite (run_SQUARE (initial_world h Cv) Ha).
  cbn [C handle initial_world]. rewrite <- Heq.
  rewrite (case_SQUARE_serial _ _ (or_introl Hgpu)).
  assert (Hm : bsgModeType inst
               = if is_vector inst
                 then (if on_x86_64 inst
                       then Algo.Gemm.Blocked else Algo.Gemm.Unblocked)
                 else (if on_a64fx inst
                       then Algo.Gemm.Unblocked else Algo.Gemm.Blocked)).
  { unfold bsgModeType. rewrite Hgpu. reflexivity. }
  assert (Hr : bsgResultsPerThread inst = ResultsPerThread.Rank2).
  { unfold bsgResultsPerThread. rewrite Hgpu, andb_false_r. reflexivity. }
  rewrite Hm, Hr. split.
  - eexists. split; [ reflexivity | ].
    rewrite !with_debug_handle, !with_debug_C, !with_debug_launched. auto.
  - rewrite invoke_serial_handle, !with_debug_handle. reflexivity.
Qed.

(** X4. Whenever [SQUARE] runs the serial kernel, it sees the caller's
    handle, and its template arguments follow the backend: one result per
    thread ([Rank0]) exactly for scalar value types on a GPU, [Rank2]
    otherwise; mode [Blocked] exactly for SIMD value types on a GPU or on
    x86-64 and for scalar value types on a host other than A64FX. *)
Theorem square_serial_parameters
        (h : BatchedGemmHandle) (Cv : CViewType CData)
        (mode : Algo.Gemm.t) (rpt : ResultsPerThread.t)
        (h' : BatchedGemmHandle) :
  kernelAlgoType h = SQUARE ids ->
  In {| kernel := BatchedSerialGemm mode rpt; handle_at_launch := h' |}
     (launched (fst (RUN (initial_world h Cv)))) ->
  h' = h
  /\ (rpt = ResultsPerThread.Rank0
      <-> is_vector inst = false /\ on_gpu inst = true)
  /\ (rpt = ResultsPerThread.Rank2
      <-> ~ (is_vector inst = false /\ on_gpu inst = true))
  /\ (mode = Algo.Gemm.Blocked
      <-> (is_vector inst = true
           /\ (on_gpu inst = true \/ on_x86_64 inst = true))
          \/ (is_vector inst = false /\ on_gpu inst = false
              /\ on_a64fx inst = false))
  /\ (mode = Algo.Gemm.Unblocked
      <-> ~ ((is_vector inst = true
              /\ (on_gpu inst = true \/ on_x86_64 inst = true))
             \/ (is_vector inst = false /\ on_gpu inst = false
                 /\ on_a64fx inst = false))).
Proof.
  intros Ha Hin.
  rewrite (run_SQUARE_launched h Cv Ha) in Hin.
  destruct (negb (c_m_of inst Cv =? c_n_of inst Cv)%N);
    [ contradiction Hin | ].
  destruct (on_gpu inst && dblbuf_in_range inst (c_m_of inst Cv));
    destruct Hin as [Hl | []]; [ discriminate Hl | ].
  injection Hl as <- <- <-.
  split; [ reflexivity | ].
  unfold bsgModeType, bsgResultsPerThread.
  destruct (is_vector inst), (on_gpu inst), (on_x86_64 inst), (on_a64fx inst);
    cbn [negb andb orb];
    repeat split; intros; try reflexivity; try discriminate;
    try (intuition congruence).
Qed.

(** X5. [KK_SERIAL] runs the serial kernel with [Unblocked] mode and
    [Rank2] results per thread on the caller's [C] for every
    instantiation, SIMD value types included, and for every output shape,
    square or not; the handle is never written. *)
Theorem explicit_serial_rank2
        (h : BatchedGemmHandle) (Cv : CViewType CData) :
  kernelAlgoType h = KK_SERIAL ids ->
  labels_distinct ids = true ->
  (exists w1 : World CData,
      RUN (initial_world h Cv)
      = INVOKE (BatchedSerialGemm Algo.Gemm.Unblocked ResultsPerThread.Rank2)
               w1
      /\ handle w1 = h /\ C w1 = Cv /\ launched w1 = [])
  /\ handle (fst (RUN (initial_world h Cv))) = h.
Proof.
  intros Ha Hd.
  destruct (labels_distinct_neq Hd)
    as (N1 & N2 & N3 & N4 & N5 & N6 & N7 & N8 & N9 & N10).
  set (w := initial_world h Cv).
  assert (Ha' : kernelAlgoType (handle w) = KK_SERIAL ids) by exact Ha.
  assert (Hchk : simd_rank_check ids inst w = (w, Ok tt)).
  { apply simd_rank_check_pass. right. unfold simd_labels. cbn [existsb].
    rewrite Ha', Z.eqb_refl. reflexivity. }
  rewrite (run_checked w Hchk), Ha'.
  destruct (ENABLE_TPL_ARMPL mc); cbn [switch app]; decide_labels;
    (split;
     [ eexists; split; [ reflexivity | ];
       rewrite with_debug_handle, with_debug_C, with_debug_launched; auto
     | rewrite invoke_serial_handle, with_debug_handle; reflexivity ]).
Qed.

(** X6. [KK_SERIAL_RANK0] runs the serial kernel with [Unblocked] mode
    and [Rank0] results per thread when the value type is scalar; for
    SIMD value types the same request is rejected by the rank check, with
    nothing launched and nothing changed. *)
Theorem explicit_serial_rank0
        (h : BatchedGemmHandle) (Cv : CViewType CData) :
  kernelAlgoType h = KK_SERIAL_RANK0 ids ->
  labels_distinct ids = true ->
  (is_vector inst = false ->
   exists w1 : World CData,
     RUN (initial_world h Cv)
     = INVOKE (BatchedSerialGemm Algo.Gemm.Unblocked ResultsPerThread.Rank0)
              w1
     /\ handle w1 = h /\ C w1 = Cv /\ launched w1 = [])
  /\ (is_vector inst = true ->
      RUN (initial_world h Cv)
      = (initial_world h Cv,
         Thrown
           ("KokkosBatched::BatchedGemm does not support kernelAlgoType = "
              ++ to_string (KK_SERIAL_RANK0 ids)
              ++ " with SIMD views." ++ endl)%string)).
Proof.
  intros Ha Hd.
  destruct (labels_distinct_neq Hd)
    as (N1 & N2 & N3 & N4 & N5 & N6 & N7 & N8 & N9 & N10).
  set (w := initial_world h Cv).
  assert (Ha' : kernelAlgoType (handle w) = KK_SERIAL_RANK0 ids) by exact Ha.
  split; intros Hv.
  - rewrite (run_checked w (simd_rank_check_pass w (or_introl Hv))), Ha'.
    destruct (ENABLE_TPL_ARMPL mc); cbn [switch app]; decide_labels;
      eexists; (split; [ reflexivity | ]);
      rewrite with_debug_handle, with_debug_C, with_debug_launched; auto.
  - assert (Hl : existsb (Z.eqb (kernelAlgoType (handle w))) (simd_labels ids)
                 = false).
    { unfold simd_labels. cbn [existsb]. rewrite Ha'. decide_labels.
      reflexivity. }
    rewrite (run_simd_reject w Hv Hl), Ha'. reflexivity.
Qed.

(** X7. [ARMPL] is accepted by the rank check for every value type. In a
    build with the ArmPL binding it runs [BatchedArmplGemm] with the
    caller's handle and [C]; in a build without it the dispatch switch
    has no such case and the call throws the generic unsupported-
    identifier error, with nothing launched and [C] and the handle
    unchanged. *)
Theorem armpl_dispatch
        (h : BatchedGemmHandle) (Cv : CViewType CData) :
  kernelAlgoType h = ARMPL ids ->
  labels_distinct ids = true ->
  (ENABLE_TPL_ARMPL mc = true ->
   exists w1 : World CData,
     RUN (initial_world h Cv) = INVOKE BatchedArmplGemm w1
     /\ handle w1 = h /\ C w1 = Cv /\ launched w1 = [])
  /\ (ENABLE_TPL_ARMPL mc = false ->
      snd (RUN (initial_world h Cv))
      = Thrown
          ("KokkosBatched::BatchedGemm does not support kernelAlgoType = "
             ++ to_string (ARMPL ids) ++ "." ++ endl)%string
      /\ launched (fst (RUN (initial_world h Cv))) = []
      /\ C (fst (RUN (initial_world h Cv))) = Cv
      /\ handle (fst (RUN (initial_world h Cv))) = h).
Proof.
  intros Ha Hd.
  destruct (labels_distinct_neq Hd)
    as (N1 & N2 & N3 & N4 & N5 & N6 & N7 & N8 & N9 & N10).
  set (w := initial_world h Cv).
  assert (Ha' : kernelAlgoType (handle w) = ARMPL ids) by exact Ha.
  assert (Hchk : simd_rank_check ids inst w = (w, Ok tt)).
  { apply simd_rank_check_pass. right. unfold simd_labels. cbn [existsb].
    rewrite Ha', Z.eqb_refl, !orb_true_r. reflexivity. }
  rewrite (run_checked w Hchk), Ha'.
  split; intros Hm; rewrite Hm; cbn [switch app]; decide_labels.
  - eexists. split; [ reflexivity | ].
    rewrite with_debug_handle, with_debug_C, with_debug_launched. auto.
  - unfold throw_runtime_exception. cbn [fst snd].
    rewrite with_debug_handle, with_debug_C, with_debug_launched. auto.
Qed.

(** X8. The double-buffered kernel without bounds checks is only ever
    launched by [SQUARE] on outputs that consist of whole tiles: both
    output extents are multiples of the tile extents it is instantiated
    with, and at least one tile large. *)
Theorem no_bounds_check_means_whole_tiles
        (h : BatchedGemmHandle) (Cv : CViewType CData)
        (a : AlphaTag.t) (tm tn tk : Z) (h' : BatchedGemmHandle) :
  kernelAlgoType h = SQUARE ids ->
  In {| kernel := BatchedDblBufGemm BoundsCheck.No a tm tn tk;
        handle_at_launch := h' |}
     (launched (fst (RUN (initial_world h Cv)))) ->
  (Z.of_N (c_m_of inst Cv) mod tm = 0)%Z
  /\ (Z.of_N (c_n_of inst Cv) mod tn = 0)%Z
  /\ (tm <= Z.of_N (c_m_of inst Cv))%Z
  /\ (tn <= Z.of_N (c_n_of inst Cv))%Z.
Proof.
  intros Ha Hin.
  destruct (SQUARE_tiled_launch_inv h Cv _ Ha Hin eq_refl)
    as (Hl & Heq & _ & Hr).
  injection Hl as Hbc _ -> -> _ _.
  rewrite <- Heq.
  assert (Hmod : (c_m_of inst Cv mod 32 = 0)%N).
  { destruct (c_m_of inst Cv mod 32 =? 0)%N eqn:Hm;
      [ now apply N.eqb_eq in Hm | discriminate Hbc ]. }
  assert (Hlow : (16 <= c_m_of inst Cv)%N).
  { unfold dblbuf_in_range in Hr.
    destruct (layout_type inst);
      rewrite ?orb_true_iff, ?andb_true_iff, ?N.leb_le in Hr; lia. }
  assert (HmodZ : (Z.of_N (c_m_of inst Cv) mod 32 = 0)%Z).
  { change 32%Z with (Z.of_N 32). rewrite <- N2Z.inj_mod, Hmod. reflexivity. }
  assert (Hpos : (16 <= Z.of_N (c_m_of inst Cv))%Z) by lia.
  assert (Hge : (32 <= Z.of_N (c_m_of inst Cv))%Z).
  { apply Z.mod_divide in HmodZ; [ | discriminate ].
    destruct HmodZ as [q Hq]. lia. }
  auto.
Qed.

End HostLevelGemmFacts.

(* ===================================================================== *)
(** ** Facts about [TeamVectorGemv]                                       *)
(* ===================================================================== *)

Section TeamVectorGemvFacts.

Context {MemberType ScalarType Pointer Memory : Type}.

Variable TeamVectorGemvInternal_invoke :
  Algo.Gemv.t -> array_layout -> MemberType ->
  N -> N -> N -> ScalarType -> Pointer -> N -> N -> N ->
  Pointer -> N -> N -> ScalarType -> Pointer -> N -> N ->
  Memory -> Memory * Z.

Variables (member : MemberType) (alpha beta : ScalarType)
          (A : AViewType3 Pointer) (x y : VecViewType Pointer)
          (mem : Memory).

(** C7. With the blocked algorithm, for [NoTranspose] as well as for
    [Transpose], [invoke] on a rank-3 [A] does not return a status: it
    ends in [Kokkos::abort] with the message that the blocked rank-3
    path is not implemented, whatever the arguments. *)
Theorem blocked_rank3_gemv_aborts :
  option_map (fun f => f member alpha A x beta y mem)
    (TeamVectorGemv_invoke TeamVectorGemvInternal_invoke
       Trans.NoTranspose Algo.Gemv.Blocked)
  = Some (Aborted
            ("KokkosBatched::TeamVectorGemv<Algo::Gemv::Blocked> for "
               ++ "rank-3 matrix is NOT implemented")%string)
  /\ option_map (fun f => f member alpha A x beta y mem)
       (TeamVectorGemv_invoke TeamVectorGemvInternal_invoke
          Trans.Transpose Algo.Gemv.Blocked)
     = Some (Aborted
               ("KokkosBatched::TeamVectorGemv<Algo::Gemv::Blocked> for "
                  ++ "rank-3 matrix is NOT implemented")%string)
  /\ (forall status m',
         TeamVectorGemv_NoTranspose_Blocked_invoke member alpha A x beta y mem
         <> Returned m' status
         /\ TeamVectorGemv_Transpose_Blocked_invoke member alpha A x beta y
              mem
            <> Returned m' status).
Proof.
  split; [ reflexivity | split; [ reflexivity | ] ].
  intros status m'. split; discriminate.
Qed.

(** C8. The unblocked [Transpose] specialisation returns exactly what
    the unblocked [NoTranspose] specialisation returns on the view of
    [A] with axes 1 and 2 exchanged (extents and strides). That view
    shares [A]'s data: the internal kernel is handed [A.data()] itself,
    with the two extents and the two strides in exchanged positions. *)
Theorem transpose_gemv_is_axis_swap :
  TeamVectorGemv_Transpose_Unblocked_invoke TeamVectorGemvInternal_invoke
    member alpha A x beta y mem
  = TeamVectorGemv_NoTranspose_Unblocked_invoke TeamVectorGemvInternal_invoke
      member alpha (swap_last_two_axes A) x beta y mem
  /\ A_data (swap_last_two_axes A) = A_data A
  /\ TeamVectorGemv_Transpose_Unblocked_invoke TeamVectorGemvInternal_invoke
       member alpha A x beta y mem
     = returned
         (TeamVectorGemvInternal_invoke Algo.Gemv.Unblocked
            (A_array_layout A) member
            (A_extent_0 A) (A_extent_2 A) (A_extent_1 A) alpha (A_data A)
            (A_stride_0 A) (A_stride_2 A) (A_stride_1 A)
            (V_data x) (V_stride_0 x) (V_stride_1 x) beta
            (V_data y) (V_stride_0 y) (V_stride_1 y) mem).
Proof.
  unfold TeamVectorGemv_Transpose_Unblocked_invoke,
    TeamVectorGemv_NoTranspose_Unblocked_invoke, swap_last_two_axes.
  cbn [A_array_layout A_data A_extent_0 A_extent_1 A_extent_2
       A_stride_0 A_stride_1 A_stride_2].
  repeat split.
Qed.

End TeamVectorGemvFacts.

(* ===================================================================== *)
(** ** The properties at concrete inputs                                  *)
(* ===================================================================== *)

(** [SQUARE] with a 4 x 8 output on an accelerator. *)
Lemma square_rejects_nonsquare_output_witness :
  kernelAlgoType (Sample.handle_for 0) = SQUARE Sample.ids
  /\ c_m_of Sample.gpu_right (Sample.C_of BatchLayout.Left 4 8)
     <> c_n_of Sample.gpu_right (Sample.C_of BatchLayout.Left 4 8)
  /\ snd (Sample.call Sample.plain_macros Sample.gpu_right 0 4 8)
     = Thrown
         ("KokkosBatched::BatchedGemm does not support kernelAlgoType = 0 "
            ++ "when c_m(4) != c_n(8)" ++ endl)%string
  /\ launched (fst (Sample.call Sample.plain_macros Sample.gpu_right 0 4 8))
     = []
  /\ C (fst (Sample.call Sample.plain_macros Sample.gpu_right 0 4 8))
     = Sample.C_of BatchLayout.Left 4 8
  /\ handle (fst (Sample.call Sample.plain_macros Sample.gpu_right 0 4 8))
     = Sample.handle_for 0.
Proof.
  split; [ reflexivity | ].
  split; [ vm_compute; discriminate | ].
  apply (square_rejects_nonsquare_output Sample.serial Sample.dblbuf
           Sample.armpl Sample.ids Sample.plain_macros Sample.gpu_right
           1%Z tt tt 0%Z (Sample.handle_for 0)
           (Sample.C_of BatchLayout.Left 4 8)).
  - reflexivity.
  - vm_compute; discriminate.
Defined.

(** Row-major storage on an accelerator: 24 is tiled, 36 is not, so the
    sizes that take the tiled path are not those above one lower bound. *)
Lemma tiled_range_is_not_a_single_threshold :
  map kernel
      (launched (fst (Sample.call Sample.plain_macros Sample.gpu_right 0 24 24)))
  = [BatchedDblBufGemm BoundsCheck.Yes AlphaTag.No 32 32 8]
  /\ map kernel
         (launched
            (fst (Sample.call Sample.plain_macros Sample.gpu_right 0 36 36)))
     = [BatchedSerialGemm Algo.Gemm.Unblocked ResultsPerThread.Rank0]
  /\ ~ (exists t : N,
           forall c : N,
             existsb is_DblBuf
               (map kernel
                  (launched
                     (fst (Sample.call Sample.plain_macros Sample.gpu_right
                             0 c c)))) = true
             <-> (t <= c)%N).
Proof.
  split; [ reflexivity | ].
  split; [ reflexivity | ].
  intros [t Ht].
  assert (H24 : (t <= 24)%N) by (apply (Ht 24%N); reflexivity).
  assert (H36 : (t <= 36)%N) by lia.
  apply (Ht 36%N) in H36. vm_compute in H36. discriminate H36.
Qed.

(** Row-major storage on an accelerator: 36 x 36 lies in the gap between
    the two accepted ranges, hence the serial kernel; 40 x 40 is tiled. *)
Lemma square_gpu_tiled_range_witness :
  kernelAlgoType (Sample.handle_for 0) = SQUARE Sample.ids
  /\ on_gpu Sample.gpu_right = true
  /\ c_m_of Sample.gpu_right (Sample.C_of BatchLayout.Left 36 36)
     = c_n_of Sample.gpu_right (Sample.C_of BatchLayout.Left 36 36)
  /\ (exists bc a tk,
         map kernel
           (launched
              (fst (Sample.call Sample.plain_macros Sample.gpu_right 0 40 40)))
         = [BatchedDblBufGemm bc a 32 32 tk])
  /\ map kernel
         (launched
            (fst (Sample.call Sample.plain_macros Sample.gpu_right 0 36 36)))
     = [BatchedSerialGemm Algo.Gemm.Unblocked ResultsPerThread.Rank0].
Proof.
  split; [ reflexivity | ].
  split; [ reflexivity | ].
  split; [ reflexivity | ].
  split.
  { apply (proj1 (square_gpu_tiled_range Sample.serial Sample.dblbuf
                    Sample.armpl Sample.ids Sample.plain_macros
                    Sample.gpu_right 1%Z tt tt 0%Z (Sample.handle_for 0)
                    (Sample.C_of BatchLayout.Left 40 40)
                    eq_refl eq_refl eq_refl)).
    unfold c_m_of. simpl. lia. }
  apply (proj2 (square_gpu_tiled_range Sample.serial Sample.dblbuf
                  Sample.armpl Sample.ids Sample.plain_macros Sample.gpu_right
                  1%Z tt tt 0%Z (Sample.handle_for 0)
                  (Sample.C_of BatchLayout.Left 36 36)
                  eq_refl eq_refl eq_refl)).
  unfold c_m_of. simpl. lia.
Defined.

(** HIP built for VEGA908: the K tile is 16, which is not half of 8. *)
Lemma vega908_tile_k_is_not_halved :
  map kernel
      (launched
         (fst (Sample.call Sample.vega908_macros Sample.hip_right 0 64 64)))
  = [BatchedDblBufGemm BoundsCheck.No AlphaTag.Yes 32 32 16]
  /\ kk_gemm_dlb_buf_tile_k Sample.plain_macros Experimental_HIP = 8%Z
  /\ kk_gemm_dlb_buf_tile_k Sample.vega908_macros Experimental_HIP
     <> (kk_gemm_dlb_buf_tile_k Sample.plain_macros Experimental_HIP / 2)%Z.
Proof.
  split; [ reflexivity | ].
  split; [ reflexivity | ].
  vm_compute. discriminate.
Qed.

Lemma square_tile_dimensions_witness :
  kernelAlgoType (Sample.handle_for 0) = SQUARE Sample.ids
  /\ In {| kernel := BatchedDblBufGemm BoundsCheck.No AlphaTag.Yes 32 32 16;
           handle_at_launch := set_teamSz 8 (set_vecLen 8 (Sample.handle_for 0)) |}
        (launched
           (fst (Sample.call Sample.vega908_macros Sample.hip_right 0 64 64)))
  /\ (32 = 32 /\ 32 = 32
      /\ (exec_space Sample.hip_right = Experimental_HIP
          /\ KOKKOS_ENABLE_HIP Sample.vega908_macros = true
          /\ KOKKOS_ARCH_VEGA908 Sample.vega908_macros = true -> 16 = 16)
      /\ (~ (exec_space Sample.hip_right = Experimental_HIP
             /\ KOKKOS_ENABLE_HIP Sample.vega908_macros = true
             /\ KOKKOS_ARCH_VEGA908 Sample.vega908_macros = true) -> 16 = 8))%Z.
Proof.
  split; [ reflexivity | ].
  split; [ left; reflexivity | ].
  apply (square_tile_dimensions Sample.serial Sample.dblbuf
           Sample.armpl Sample.ids Sample.vega908_macros Sample.hip_right
           1%Z tt tt 0%Z (Sample.handle_for 0)
           (Sample.C_of BatchLayout.Left 64 64)
           BoundsCheck.No AlphaTag.Yes 32 32 16
           (set_teamSz 8 (set_vecLen 8 (Sample.handle_for 0)))).
  - reflexivity.
  - left; reflexivity.
Defined.

(** 24 x 24 in row-major storage: tiled, not a multiple of 32. *)
Lemma square_bounds_check_mode_witness :
  kernelAlgoType (Sample.handle_for 0) = SQUARE Sample.ids
  /\ In {| kernel := BatchedDblBufGemm BoundsCheck.Yes AlphaTag.No 32 32 8;
           handle_at_launch := set_teamSz 8 (set_vecLen 8 (Sample.handle_for 0)) |}
        (launched
           (fst (Sample.call Sample.plain_macros Sample.gpu_right 0 24 24)))
  /\ (32 = 32)%Z
  /\ (BoundsCheck.Yes = BoundsCheck.No
      <-> (c_m_of Sample.gpu_right (Sample.C_of BatchLayout.Left 24 24) mod 32
           = 0)%N)
  /\ (BoundsCheck.Yes = BoundsCheck.Yes
      <-> (c_m_of Sample.gpu_right (Sample.C_of BatchLayout.Left 24 24) mod 32
           <> 0)%N).
Proof.
  split; [ reflexivity | ].
  split; [ left; reflexivity | ].
  apply (square_bounds_check_mode Sample.serial Sample.dblbuf
           Sample.armpl Sample.ids Sample.plain_macros Sample.gpu_right
           1%Z tt tt 0%Z (Sample.handle_for 0)
           (Sample.C_of BatchLayout.Left 24 24)
           BoundsCheck.Yes AlphaTag.No 32 32 8
           (set_teamSz 8 (set_vecLen 8 (Sample.handle_for 0)))).
  - reflexivity.
  - left; reflexivity.
Defined.

(** 64 x 64 in row-major storage: tiled, at the default threshold. *)
Lemma square_alpha_in_fma_witness :
  kernelAlgoType (Sample.handle_for 0) = SQUARE Sample.ids
  /\ In {| kernel := BatchedDblBufGemm BoundsCheck.No AlphaTag.Yes 32 32 8;
           handle_at_launch := set_teamSz 8 (set_vecLen 8 (Sample.handle_for 0)) |}
        (launched
           (fst (Sample.call Sample.plain_macros Sample.gpu_right 0 64 64)))
  /\ (AlphaTag.Yes = AlphaTag.Yes
      <-> ((if CUDACC_RDC Sample.plain_macros then 24 else 64)
           <= c_m_of Sample.gpu_right (Sample.C_of BatchLayout.Left 64 64))%N)
  /\ (AlphaTag.Yes = AlphaTag.No
      <-> (c_m_of Sample.gpu_right (Sample.C_of BatchLayout.Left 64 64)
           < (if CUDACC_RDC Sample.plain_macros then 24 else 64))%N).
Proof.
  split; [ reflexivity | ].
  split; [ left; reflexivity | ].
  apply (square_alpha_in_fma Sample.serial Sample.dblbuf
           Sample.armpl Sample.ids Sample.plain_macros Sample.gpu_right
           1%Z tt tt 0%Z (Sample.handle_for 0)
           (Sample.C_of BatchLayout.Left 64 64)
           BoundsCheck.No AlphaTag.Yes 32 32 8
           (set_teamSz 8 (set_vecLen 8 (Sample.handle_for 0)))).
  - reflexivity.
  - left; reflexivity.
Defined.

(** SIMD views with identifier 14 ([KK_DBLBUF] in the sample numbering):
    not among the three identifiers accepted for SIMD views. *)
Lemma unrecognized_algo_rejected_witness :
  (recognized Sample.ids Sample.plain_macros Sample.simd_host_left
     (kernelAlgoType (Sample.handle_for 14)) = false
   \/ (is_vector Sample.simd_host_left = true
       /\ kernelAlgoType (Sample.handle_for 14) <> KK_SERIAL Sample.ids
       /\ kernelAlgoType (Sample.handle_for 14) <> SQUARE Sample.ids
       /\ kernelAlgoType (Sample.handle_for 14) <> ARMPL Sample.ids))
  /\ (exists suffix : string,
         snd (Sample.call Sample.plain_macros Sample.simd_host_left 14 4 4)
         = Thrown
             ("KokkosBatched::BatchedGemm does not support kernelAlgoType = "
                ++ "14" ++ suffix)%string
         /\ (is_vector Sample.simd_host_left = true ->
             existsb (Z.eqb 14) (simd_labels Sample.ids) = false ->
             suffix = (" with SIMD views." ++ endl)%string))
  /\ launched
       (fst (Sample.call Sample.plain_macros Sample.simd_host_left 14 4 4))
     = []
  /\ C (fst (Sample.call Sample.plain_macros Sample.simd_host_left 14 4 4))
     = Sample.C_of BatchLayout.Right 4 4
  /\ handle (fst (Sample.call Sample.plain_macros Sample.simd_host_left 14 4 4))
     = Sample.handle_for 14.
Proof.
  split; [ left; reflexivity | ].
  apply (unrecognized_algo_rejected Sample.serial Sample.dblbuf
           Sample.armpl Sample.ids Sample.plain_macros Sample.simd_host_left
           1%Z tt tt 0%Z (Sample.handle_for 14)
           (Sample.C_of BatchLayout.Right 4 4)).
  left; reflexivity.
Defined.

(** An identifier that no switch knows, on scalar views. *)
Example unknown_algo_on_scalar_views :
  Sample.call Sample.plain_macros Sample.gpu_right (-7) 4 4
  = (initial_world (Sample.handle_for (-7)) (Sample.C_of BatchLayout.Left 4 4),
     Thrown
       ("KokkosBatched::BatchedGemm does not support kernelAlgoType = -7."
          ++ endl)%string).
Proof. reflexivity. Qed.

(** [ARMPL] passes the SIMD rank check but has no case in the dispatch
    switch of a build without the ArmPL binding. *)
Example armpl_without_binding :
  Sample.call Sample.plain_macros Sample.simd_host_left 3 4 4
  = (initial_world (Sample.handle_for 3) (Sample.C_of BatchLayout.Right 4 4),
     Thrown
       ("KokkosBatched::BatchedGemm does not support kernelAlgoType = 3."
          ++ endl)%string).
Proof. reflexivity. Qed.

(** The handle on the tiled path and on the fallback path of [SQUARE]. *)
Example handle_on_tiled_and_fallback_paths :
  map handle_at_launch
      (launched (fst (Sample.call Sample.plain_macros Sample.gpu_right 0 40 40)))
  = [{| kernelAlgoType := 0; teamSz := 8; vecLen := 8; enableDebug := false |}]
  /\ handle (fst (Sample.call Sample.plain_macros Sample.gpu_right 0 36 36))
     = Sample.handle_for 0.
Proof. split; reflexivity. Qed.

(** [KK_DBLBUF] with views of SIMD value type: rejected by the rank check,
    so no double-buffered kernel runs. *)
Lemma explicit_dblbuf_rejected_for_simd_views :
  labels_distinct Sample.ids = true
  /\ kernelAlgoType (Sample.handle_for 14) = KK_DBLBUF Sample.ids
  /\ launched
       (fst (Sample.call Sample.plain_macros Sample.simd_host_left 14 4 4))
     = []
  /\ snd (Sample.call Sample.plain_macros Sample.simd_host_left 14 4 4)
     = Thrown
         ("KokkosBatched::BatchedGemm does not support kernelAlgoType = 14 "
            ++ "with SIMD views." ++ endl)%string
  /\ launched
       (fst (Sample.call Sample.plain_macros Sample.simd_host_left 14 4 4))
     <> [{| kernel := BatchedDblBufGemm BoundsCheck.Yes AlphaTag.No 1 1 1;
            handle_at_launch := Sample.handle_for 14 |}].
Proof.
  repeat split; try reflexivity.
  vm_compute. discriminate.
Qed.

(** [KK_DBLBUF] on scalar views, 64 x 64 on an accelerator. *)
Lemma explicit_dblbuf_instantiation_witness :
  kernelAlgoType (Sample.handle_for 14) = KK_DBLBUF Sample.ids
  /\ labels_distinct Sample.ids = true
  /\ is_vector Sample.gpu_right = false
  /\ launched (fst (Sample.call Sample.plain_macros Sample.gpu_right 14 64 64))
     = [{| kernel := BatchedDblBufGemm BoundsCheck.Yes AlphaTag.No 1 1 1;
           handle_at_launch := Sample.handle_for 14 |}].
Proof.
  split; [ reflexivity | ].
  split; [ reflexivity | ].
  split; [ reflexivity | ].
  apply (explicit_dblbuf_instantiation Sample.serial Sample.dblbuf
           Sample.armpl Sample.ids Sample.plain_macros Sample.gpu_right
           1%Z tt tt 0%Z (Sample.handle_for 14)
           (Sample.C_of BatchLayout.Left 64 64));
    reflexivity.
Defined.

(** The transposed call hands the kernel the same pointer with the two
    extents and the two strides exchanged. *)
Example transpose_gemv_geometry :
  TeamVectorGemv_Transpose_Unblocked_invoke Sample.gemv_internal
    tt 1%Z Sample.A_view Sample.x_view 0%Z Sample.y_view []
  = Returned [(7%nat, [100; 5; 3; 15; 1; 5]%N)] 0%Z
  /\ TeamVectorGemv_NoTranspose_Unblocked_invoke Sample.gemv_internal
       tt 1%Z Sample.A_view Sample.x_view 0%Z Sample.y_view []
     = Returned [(7%nat, [100; 3; 5; 15; 5; 1]%N)] 0%Z.
Proof. split; reflexivity. Qed.

(** The sample instantiations pass the [static_assert]s of [run], and the
    sample numbering has pairwise different labels. *)
Example sample_instantiations_compile :
  static_asserts Sample.gpu_right = true
  /\ static_asserts Sample.hip_right = true
  /\ static_asserts Sample.simd_host_left = true
  /\ labels_distinct Sample.ids = true.
Proof. repeat split. Qed.

(* ===================================================================== *)
(** ** Further properties                                                 *)
(* ===================================================================== *)

(** X9. Which kernel a call launches, if any, depends only on the
    algorithm identifier and on the two output extents [c_m] and [c_n]
    (for a given instantiation and build): not on [alpha], [beta], [A],
    [B], the contents or batch count of [C], the tuning fields or the
    debug flag of the handle, nor on what the kernels do. *)
Theorem selection_depends_only_on_algo_and_extents
        {S1 A1 B1 D1 S2 A2 B2 D2 : Type}
        (serial1 : Trans.t -> Trans.t -> Algo.Gemm.t -> BatchLayout.t ->
                   ResultsPerThread.t -> S1 -> A1 -> B1 -> S1 ->
                   CViewType D1 -> CViewType D1 * Result Z)
        (dblbuf1 : Trans.t -> Trans.t -> BatchLayout.t -> BoundsCheck.t ->
                   AlphaTag.t -> Z -> Z -> Z -> BatchedGemmHandle ->
                   S1 -> A1 -> B1 -> S1 -> CViewType D1 ->
                   BatchedGemmHandle * CViewType D1 * Result Z)
        (armpl1 : Trans.t -> Trans.t -> BatchLayout.t -> BatchedGemmHandle ->
                  S1 -> A1 -> B1 -> S1 -> CViewType D1 ->
                  BatchedGemmHandle * CViewType D1 * Result Z)
        (serial2 : Trans.t -> Trans.t -> Algo.Gemm.t -> BatchLayout.t ->
                   ResultsPerThread.t -> S2 -> A2 -> B2 -> S2 ->
                   CViewType D2 -> CViewType D2 * Result Z)
        (dblbuf2 : Trans.t -> Trans.t -> BatchLayout.t -> BoundsCheck.t ->
                   AlphaTag.t -> Z -> Z -> Z -> BatchedGemmHandle ->
                   S2 -> A2 -> B2 -> S2 -> CViewType D2 ->
                   BatchedGemmHandle * CViewType D2 * Result Z)
        (armpl2 : Trans.t -> Trans.t -> BatchLayout.t -> BatchedGemmHandle ->
                  S2 -> A2 -> B2 -> S2 -> CViewType D2 ->
                  BatchedGemmHandle * CViewType D2 * Result Z)
        (ids : KernelAlgoIds) (mc : Macros) (inst : Instantiation)
        (alpha1 beta1 : S1) (a1 : A1) (b1 : B1)
        (alpha2 beta2 : S2) (a2 : A2) (b2 : B2)
        (h1 h2 : BatchedGemmHandle)
        (Cv1 : CViewType D1) (Cv2 : CViewType D2) :
  kernelAlgoType h1 = kernelAlgoType h2 ->
  c_m_of inst Cv1 = c_m_of inst Cv2 ->
  c_n_of inst Cv1 = c_n_of inst Cv2 ->
  map kernel
      (launched
         (fst (run serial1 dblbuf1 armpl1 ids mc inst alpha1 a1 b1 beta1
                 (initial_world h1 Cv1))))
  = map kernel
        (launched
           (fst (run serial2 dblbuf2 armpl2 ids mc inst alpha2 a2 b2 beta2
                   (initial_world h2 Cv2)))).
Proof.
  intros Ha Hm Hn.
  rewrite !run_selected, Ha, Hm, Hn. reflexivity.
Qed.

Section WrapperFacts.

Context {ScalarType AViewType BViewType CData : Type}.

Variable BatchedSerialGemm_invoke :
  Trans.t -> Trans.t -> Algo.Gemm.t -> BatchLayout.t -> ResultsPerThread.t ->
  ScalarType -> AViewType -> BViewType -> ScalarType -> CViewType CData ->
  CViewType CData * Result Z.
Variable BatchedDblBufGemm_invoke :
  Trans.t -> Trans.t -> BatchLayout.t -> BoundsCheck.t -> AlphaTag.t ->
  Z -> Z -> Z ->
  BatchedGemmHandle -> ScalarType -> AViewType -> BViewType -> ScalarType ->
  CViewType CData -> BatchedGemmHandle * CViewType CData * Result Z.
Variable BatchedArmplGemm_invoke :
  Trans.t -> Trans.t -> BatchLayout.t ->
  BatchedGemmHandle -> ScalarType -> AViewType -> BViewType -> ScalarType ->
  CViewType CData -> BatchedGemmHandle * CViewType CData * Result Z.

Variable ids : KernelAlgoIds.
Variable mc : Macros.
Variable wm : WrapperMacros.
Variable inst : Instantiation.

Variables (alpha : ScalarType) (A : AViewType) (B : BViewType)
          (beta : ScalarType).

Local Notation "'WRAP' eti" :=
  (BatchedGemmWrapper_run BatchedSerialGemm_invoke BatchedDblBufGemm_invoke
     BatchedArmplGemm_invoke ids mc wm inst eti alpha A B beta)
  (at level 10, eti at level 9).

(** X10. Whether a call binds to the ETI or to the non-ETI specialisation
    of [BatchedGemmWrapper] cannot be told from its outcome: whenever both
    are defined they produce the same world and result, namely those of
    [BatchedGemmWrapperInner::run], and they print nothing unless
    [KOKKOSKERNELS_ENABLE_CHECK_SPECIALIZATION] is defined. A
    specialisation is missing exactly for ETI types outside a library
    build and for non-ETI types under [KOKKOSKERNELS_ETI_ONLY]. *)
Theorem wrapper_specialisations_agree (w : World CData) :
  (forall (eti1 eti2 : bool) r1 r2,
      WRAP eti1 w = Some r1 ->
      WRAP eti2 w = Some r2 ->
      snd r1 = snd r2
      /\ snd r1
         = run BatchedSerialGemm_invoke BatchedDblBufGemm_invoke
             BatchedArmplGemm_invoke ids mc inst alpha A B beta w
      /\ (KOKKOSKERNELS_ENABLE_CHECK_SPECIALIZATION wm = false ->
          fst r1 = []))
  /\ (forall eti : bool,
         WRAP eti w = None
         <-> (eti = true /\ KOKKOSKERNELS_IMPL_COMPILE_LIBRARY wm = false)
             \/ (eti = false /\ KOKKOSKERNELS_ETI_ONLY wm = true)).
Proof.
  unfold BatchedGemmWrapper_run. split.
  - intros eti1 eti2 r1 r2 H1 H2.
    destruct eti1, eti2;
      destruct (KOKKOSKERNELS_IMPL_COMPILE_LIBRARY wm);
      destruct (KOKKOSKERNELS_ETI_ONLY wm);
      cbn [negb] in H1, H2; try discriminate;
      injection H1 as <-; injection H2 as <-; cbn [fst snd];
      (repeat split; [ intros Hc; rewrite Hc; reflexivity ]).
  - intros eti.
    destruct eti;
      destruct (KOKKOSKERNELS_IMPL_COMPILE_LIBRARY wm);
      destruct (KOKKOSKERNELS_ETI_ONLY wm);
      cbn [negb]; split; intros H; try discriminate; auto;
      destruct H as [[H1 H2] | [H1 H2]]; discriminate.
Qed.

End WrapperFacts.

Section EtiFacts.

Context {Scalar ExecSpace MemSpace : Type}.

Variable em : EtiMacros.

(** X11. Every explicit instantiation that one of the eight
    instantiation macros emits passes the [static_assert]s of [run]:
    both transposes are [NoTranspose] or [Transpose], and the storage
    layout is paired with the batch layout it requires. The macro's
    [LAYOUT] argument has no influence: the batch-left macros always use
    [LayoutRight] and the batch-right macros [LayoutLeft]. *)
Theorem eti_instantiations_are_legal
        (macro : Scalar -> array_layout -> ExecSpace -> MemSpace ->
                 list (EtiInstantiation Scalar ExecSpace MemSpace))
        (s : Scalar) (layout : array_layout) (e : ExecSpace) (m : MemSpace)
        (i : EtiInstantiation Scalar ExecSpace MemSpace)
        (space : execution_space) (vec gpu x86_64 a64fx : bool) :
  In macro (eti_spec_inst_macros em) ->
  In i (macro s layout e m) ->
  static_asserts (instantiation_of i space vec gpu x86_64 a64fx) = true
  /\ (eti_ArgBatchSzDim i = BatchLayout.Left -> eti_layout i = LayoutRight)
  /\ (eti_ArgBatchSzDim i = BatchLayout.Right -> eti_layout i = LayoutLeft)
  /\ (forall layout' : array_layout, macro s layout' e m = macro s layout e m)
  /\ eti_scalar i = s /\ eti_exec_space i = e /\ eti_mem_space i = m.
Proof.
  intros Hmacro Hi.
  unfold eti_spec_inst_macros in Hmacro. cbn [In] in Hmacro.
  repeat (destruct Hmacro as [<- | Hmacro]);
    try contradiction Hmacro;
    cbv [KOKKOSBATCHED_GEMM_NT_NT_BLL_ETI_SPEC_INST
         KOKKOSBATCHED_GEMM_NT_T_BLL_ETI_SPEC_INST
         KOKKOSBATCHED_GEMM_T_NT_BLL_ETI_SPEC_INST
         KOKKOSBATCHED_GEMM_T_T_BLL_ETI_SPEC_INST
         KOKKOSBATCHED_GEMM_NT_NT_BLR_ETI_SPEC_INST
         KOKKOSBATCHED_GEMM_NT_T_BLR_ETI_SPEC_INST
         KOKKOSBATCHED_GEMM_T_NT_BLR_ETI_SPEC_INST
         KOKKOSBATCHED_GEMM_T_T_BLR_ETI_SPEC_INST
         KOKKOSBATCHED_GEMM_BLL_ETI_SPEC_INST_INNER
         KOKKOSBATCHED_GEMM_BLR_ETI_SPEC_INST_INNER
         KOKKOSBATCHED_GEMM_ETI_SPEC_INST_INNER] in *;
    destruct (KOKKOSKERNELS_INST_LAYOUTRIGHT em);
    destruct (KOKKOSKERNELS_INST_LAYOUTLEFT em);
    try contradiction Hi;
    destruct Hi as [<- | []];
    cbn; repeat split; intros; try reflexivity; try discriminate.
Qed.

(** X12. Together the eight macros emit, for each enabled storage layout,
    the four combinations of [NoTranspose] and [Transpose] for [A] and
    [B], each once: batch-left with [LayoutRight] under
    [KOKKOSKERNELS_INST_LAYOUTRIGHT], batch-right with [LayoutLeft] under
    [KOKKOSKERNELS_INST_LAYOUTLEFT], and nothing for a layout that is not
    enabled. *)
Theorem eti_macros_cover_the_transposes
        (s : Scalar) (layout : array_layout) (e : ExecSpace) (m : MemSpace) :
  map (fun i : EtiInstantiation Scalar ExecSpace MemSpace =>
         (eti_ArgTransA i, eti_ArgTransB i, eti_ArgBatchSzDim i, eti_layout i))
      (flat_map (fun macro => macro s layout e m) (eti_spec_inst_macros em))
  = (if KOKKOSKERNELS_INST_LAYOUTRIGHT em
     then [ (Trans.NoTranspose, Trans.NoTranspose, BatchLayout.Left, LayoutRight);
            (Trans.NoTranspose, Trans.Transpose, BatchLayout.Left, LayoutRight);
            (Trans.Transpose, Trans.NoTranspose, BatchLayout.Left, LayoutRight);
            (Trans.Transpose, Trans.Transpose, BatchLayout.Left, LayoutRight) ]
     else [])
    ++ (if KOKKOSKERNELS_INST_LAYOUTLEFT em
        then [ (Trans.NoTranspose, Trans.NoTranspose, BatchLayout.Right, LayoutLeft);
               (Trans.NoTranspose, Trans.Transpose, BatchLayout.Right, LayoutLeft);
               (Trans.Transpose, Trans.NoTranspose, BatchLayout.Right, LayoutLeft);
               (Trans.Transpose, Trans.Transpose, BatchLayout.Right, LayoutLeft) ]
        else []).
Proof.
  cbv [eti_spec_inst_macros flat_map
       KOKKOSBATCHED_GEMM_NT_NT_BLL_ETI_SPEC_INST
       KOKKOSBATCHED_GEMM_NT_T_BLL_ETI_SPEC_INST
       KOKKOSBATCHED_GEMM_T_NT_BLL_ETI_SPEC_INST
       KOKKOSBATCHED_GEMM_T_T_BLL_ETI_SPEC_INST
       KOKKOSBATCHED_GEMM_NT_NT_BLR_ETI_SPEC_INST
       KOKKOSBATCHED_GEMM_NT_T_BLR_ETI_SPEC_INST
       KOKKOSBATCHED_GEMM_T_NT_BLR_ETI_SPEC_INST
       KOKKOSBATCHED_GEMM_T_T_BLR_ETI_SPEC_INST
       KOKKOSBATCHED_GEMM_BLL_ETI_SPEC_INST_INNER
       KOKKOSBATCHED_GEMM_BLR_ETI_SPEC_INST_INNER
       KOKKOSBATCHED_GEMM_ETI_SPEC_INST_INNER].
  destruct (KOKKOSKERNELS_INST_LAYOUTRIGHT em);
    destruct (KOKKOSKERNELS_INST_LAYOUTLEFT em); reflexivity.
Qed.

End EtiFacts.

Section TeamVectorGemvMoreFacts.

Context {MemberType ScalarType Pointer Memory : Type}.

Variable TeamVectorGemvInternal_invoke :
  Algo.Gemv.t -> array_layout -> MemberType ->
  N -> N -> N -> ScalarType -> Pointer -> N -> N -> N ->
  Pointer -> N -> N -> ScalarType -> Pointer -> N -> N ->
  Memory -> Memory * Z.

Variables (member : MemberType) (alpha beta : ScalarType)
          (A : AViewType3 Pointer) (x y : VecViewType Pointer)
          (mem : Memory).

(** X13. A call to a [TeamVectorGemv] specialisation of this file aborts
    with the not-implemented message if and only if its algorithm is
    [Blocked]. With [Unblocked] it returns exactly the memory and the
    status that the unblocked internal kernel produces for [A.data()],
    with extents and strides 1 and 2 of [A] in their own order for
    [NoTranspose] and exchanged for [Transpose]; [member], [alpha],
    [beta], [x] and [y] are handed on as they are in both cases. *)
Theorem gemv_aborts_exactly_when_blocked
        (tr : Trans.t) (algo : Algo.Gemv.t)
        (f : MemberType -> ScalarType -> AViewType3 Pointer ->
             VecViewType Pointer -> ScalarType -> VecViewType Pointer ->
             Memory -> GemvOutcome Memory) :
  TeamVectorGemv_invoke TeamVectorGemvInternal_invoke tr algo = Some f ->
  (algo = Algo.Gemv.Blocked ->
   f member alpha A x beta y mem
   = Aborted
       ("KokkosBatched::TeamVectorGemv<Algo::Gemv::Blocked> for rank-3 "
          ++ "matrix is NOT implemented")%string)
  /\ (algo = Algo.Gemv.Unblocked ->
      f member alpha A x beta y mem
      = Returned
          (fst (TeamVectorGemvInternal_invoke Algo.Gemv.Unblocked
                  (A_array_layout A) member (A_extent_0 A)
                  (match tr with
                   | Trans.Transpose => A_extent_2 A
                   | _ => A_extent_1 A
                   end)
                  (match tr with
                   | Trans.Transpose => A_extent_1 A
                   | _ => A_extent_2 A
                   end)
                  alpha (A_data A) (A_stride_0 A)
                  (match tr with
                   | Trans.Transpose => A_stride_2 A
                   | _ => A_stride_1 A
                   end)
                  (match tr with
                   | Trans.Transpose => A_stride_1 A
                   | _ => A_stride_2 A
                   end)
                  (V_data x) (V_stride_0 x) (V_stride_1 x) beta
                  (V_data y) (V_stride_0 y) (V_stride_1 y) mem))
          (snd (TeamVectorGemvInternal_invoke Algo.Gemv.Unblocked
                  (A_array_layout A) member (A_extent_0 A)
                  (match tr with
                   | Trans.Transpose => A_extent_2 A
                   | _ => A_extent_1 A
                   end)
                  (match tr with
                   | Trans.Transpose => A_extent_1 A
                   | _ => A_extent_2 A
                   end)
                  alpha (A_data A) (A_stride_0 A)
                  (match tr with
                   | Trans.Transpose => A_stride_2 A
                   | _ => A_stride_1 A
                   end)
                  (match tr with
                   | Trans.Transpose => A_stride_1 A
                   | _ => A_stride_2 A
                   end)
                  (V_data x) (V_stride_0 x) (V_stride_1 x) beta
                  (V_data y) (V_stride_0 y) (V_stride_1 y) mem)))
  /\ ((exists msg, f member alpha A x beta y mem = Aborted msg)
      <-> algo = Algo.Gemv.Blocked).
Proof.
  intros Hf.
  destruct tr, algo; cbn in Hf; try discriminate; injection Hf as <-;
    (split; [ intros Ha; first [ reflexivity | discriminate Ha ] | ];
     split; [ intros Ha; first [ reflexivity | discriminate Ha ] | ];
     split; intros H;
     first
       [ reflexivity
       | discriminate H
       | eexists; reflexivity
       | exfalso; revert H;
         unfold TeamVectorGemv_NoTranspose_Unblocked_invoke,
           TeamVectorGemv_Transpose_Unblocked_invoke, returned;
         intros (? & ?); discriminate ]).
Qed.

(** X14. Exchanging axes 1 and 2 of a view twice gives the view back, so
    the correspondence between the two unblocked specialisations works in
    both directions: [NoTranspose] on [A] is [Transpose] on the view of
    [A] with axes 1 and 2 exchanged. *)
Theorem notranspose_gemv_is_transpose_of_swap :
  swap_last_two_axes (swap_last_two_axes A) = A
  /\ TeamVectorGemv_NoTranspose_Unblocked_invoke TeamVectorGemvInternal_invoke
       member alpha A x beta y mem
     = TeamVectorGemv_Transpose_Unblocked_invoke TeamVectorGemvInternal_invoke
         member alpha (swap_last_two_axes A) x beta y mem.
Proof.
  split.
  - destruct A. reflexivity.
  - reflexivity.
Qed.

End TeamVectorGemvMoreFacts.

(* ===================================================================== *)
(** ** The further properties at concrete inputs                          *)
(* ===================================================================== *)

(** [SQUARE] with a 5 x 5 output of scalars on an A64FX host. *)
Lemma square_on_host_is_serial_witness :
  kernelAlgoType (Sample.handle_for 0) = SQUARE Sample.ids
  /\ on_gpu MoreSamples.a64fx_left = false
  /\ c_m_of MoreSamples.a64fx_left (Sample.C_of BatchLayout.Right 5 5)
     = c_n_of MoreSamples.a64fx_left (Sample.C_of BatchLayout.Right 5 5)
  /\ (exists w1 : World nat,
         Sample.call Sample.plain_macros MoreSamples.a64fx_left 0 5 5
         = invoke Sample.serial Sample.dblbuf Sample.armpl
             MoreSamples.a64fx_left
             (BatchedSerialGemm Algo.Gemm.Unblocked ResultsPerThread.Rank2)
             1%Z tt tt 0%Z w1
         /\ handle w1 = Sample.handle_for 0
         /\ C w1 = Sample.C_of BatchLayout.Right 5 5
         /\ launched w1 = [])
  /\ handle (fst (Sample.call Sample.plain_macros MoreSamples.a64fx_left 0 5 5))
     = Sample.handle_for 0.
Proof.
  split; [ reflexivity | ].
  split; [ reflexivity | ].
  split; [ reflexivity | ].
  apply (square_on_host_is_serial Sample.serial Sample.dblbuf Sample.armpl
           Sample.ids Sample.plain_macros MoreSamples.a64fx_left
           1%Z tt tt 0%Z (Sample.handle_for 0)
           (Sample.C_of BatchLayout.Right 5 5));
    reflexivity.
Defined.

(** The fallback of [SQUARE] on an accelerator, 36 x 36 scalars. *)
Lemma square_serial_parameters_witness :
  kernelAlgoType (Sample.handle_for 0) = SQUARE Sample.ids
  /\ In {| kernel :=
             BatchedSerialGemm Algo.Gemm.Unblocked ResultsPerThread.Rank0;
           handle_at_launch := Sample.handle_for 0 |}
        (launched
           (fst (Sample.call Sample.plain_macros Sample.gpu_right 0 36 36)))
  /\ (Sample.handle_for 0 = Sample.handle_for 0
      /\ (ResultsPerThread.Rank0 = ResultsPerThread.Rank0
          <-> is_vector Sample.gpu_right = false
              /\ on_gpu Sample.gpu_right = true)
      /\ (ResultsPerThread.Rank0 = ResultsPerThread.Rank2
          <-> ~ (is_vector Sample.gpu_right = false
                 /\ on_gpu Sample.gpu_right = true))
      /\ (Algo.Gemm.Unblocked = Algo.Gemm.Blocked
          <-> (is_vector Sample.gpu_right = true
               /\ (on_gpu Sample.gpu_right = true
                   \/ on_x86_64 Sample.gpu_right = true))
              \/ (is_vector Sample.gpu_right = false
                  /\ on_gpu Sample.gpu_right = false
                  /\ on_a64fx Sample.gpu_right = false))
      /\ (Algo.Gemm.Unblocked = Algo.Gemm.Unblocked
          <-> ~ ((is_vector Sample.gpu_right = true
                  /\ (on_gpu Sample.gpu_right = true
                      \/ on_x86_64 Sample.gpu_right = true))
                 \/ (is_vector Sample.gpu_right = false
                     /\ on_gpu Sample.gpu_right = false
                     /\ on_a64fx Sample.gpu_right = false)))).
Proof.
  split; [ reflexivity | ].
  split; [ left; reflexivity | ].
  apply (square_serial_parameters Sample.serial Sample.dblbuf Sample.armpl
           Sample.ids Sample.plain_macros Sample.gpu_right
           1%Z tt tt 0%Z (Sample.handle_for 0)
           (Sample.C_of BatchLayout.Left 36 36)
           Algo.Gemm.Unblocked ResultsPerThread.Rank0 (Sample.handle_for 0)).
  - reflexivity.
  - left; reflexivity.
Defined.

(** [KK_SERIAL] with a 4 x 8 output of SIMD values on an x86 host. *)
Lemma explicit_serial_rank2_witness :
  kernelAlgoType (Sample.handle_for 5) = KK_SERIAL Sample.ids
  /\ labels_distinct Sample.ids = true
  /\ (exists w1 : World nat,
         Sample.call Sample.plain_macros Sample.simd_host_left 5 4 8
         = invoke Sample.serial Sample.dblbuf Sample.armpl
             Sample.simd_host_left
             (BatchedSerialGemm Algo.Gemm.Unblocked ResultsPerThread.Rank2)
             1%Z tt tt 0%Z w1
         /\ handle w1 = Sample.handle_for 5
         /\ C w1 = Sample.C_of BatchLayout.Right 4 8
         /\ launched w1 = [])
  /\ handle (fst (Sample.call Sample.plain_macros Sample.simd_host_left 5 4 8))
     = Sample.handle_for 5.
Proof.
  split; [ reflexivity | ].
  split; [ reflexivity | ].
  apply (explicit_serial_rank2 Sample.serial Sample.dblbuf Sample.armpl
           Sample.ids Sample.plain_macros Sample.simd_host_left
           1%Z tt tt 0%Z (Sample.handle_for 5)
           (Sample.C_of BatchLayout.Right 4 8));
    reflexivity.
Defined.

(** [KK_SERIAL_RANK0] with a 4 x 8 output of scalars on an accelerator. *)
Lemma explicit_serial_rank0_witness :
  kernelAlgoType (Sample.handle_for 12) = KK_SERIAL_RANK0 Sample.ids
  /\ labels_distinct Sample.ids = true
  /\ is_vector Sample.gpu_right = false
  /\ (exists w1 : World nat,
         Sample.call Sample.plain_macros Sample.gpu_right 12 4 8
         = invoke Sample.serial Sample.dblbuf Sample.armpl Sample.gpu_right
             (BatchedSerialGemm Algo.Gemm.Unblocked ResultsPerThread.Rank0)
             1%Z tt tt 0%Z w1
         /\ handle w1 = Sample.handle_for 12
         /\ C w1 = Sample.C_of BatchLayout.Left 4 8
         /\ launched w1 = []).
Proof.
  split; [ reflexivity | ].
  split; [ reflexivity | ].
  split; [ reflexivity | ].
  apply (proj1 (explicit_serial_rank0 Sample.serial Sample.dblbuf Sample.armpl
                  Sample.ids Sample.plain_macros Sample.gpu_right
                  1%Z tt tt 0%Z (Sample.handle_for 12)
                  (Sample.C_of BatchLayout.Left 4 8) eq_refl eq_refl)).
  reflexivity.
Defined.

(** [ARMPL] with SIMD values in a build that has the ArmPL binding. *)
Lemma armpl_dispatch_witness :
  kernelAlgoType (Sample.handle_for 3) = ARMPL Sample.ids
  /\ labels_distinct Sample.ids = true
  /\ ENABLE_TPL_ARMPL MoreSamples.armpl_macros = true
  /\ (exists w1 : World nat,
         Sample.call MoreSamples.armpl_macros Sample.simd_host_left 3 4 4
         = invoke Sample.serial Sample.dblbuf Sample.armpl
             Sample.simd_host_left BatchedArmplGemm 1%Z tt tt 0%Z w1
         /\ handle w1 = Sample.handle_for 3
         /\ C w1 = Sample.C_of BatchLayout.Right 4 4
         /\ launched w1 = []).
Proof.
  split; [ reflexivity | ].
  split; [ reflexivity | ].
  split; [ reflexivity | ].
  apply (proj1 (armpl_dispatch Sample.serial Sample.dblbuf Sample.armpl
                  Sample.ids MoreSamples.armpl_macros Sample.simd_host_left
                  1%Z tt tt 0%Z (Sample.handle_for 3)
                  (Sample.C_of BatchLayout.Right 4 4) eq_refl eq_refl)).
  reflexivity.
Defined.

(** [SQUARE] with a 64 x 64 output on an accelerator: two by two tiles. *)
Lemma no_bounds_check_means_whole_tiles_witness :
  kernelAlgoType (Sample.handle_for 0) = SQUARE Sample.ids
  /\ In {| kernel := BatchedDblBufGemm BoundsCheck.No AlphaTag.Yes 32 32 8;
           handle_at_launch :=
             set_teamSz 8 (set_vecLen 8 (Sample.handle_for 0)) |}
        (launched
           (fst (Sample.call Sample.plain_macros Sample.gpu_right 0 64 64)))
  /\ (Z.of_N (c_m_of Sample.gpu_right (Sample.C_of BatchLayout.Left 64 64))
      mod 32 = 0
      /\ Z.of_N (c_n_of Sample.gpu_right (Sample.C_of BatchLayout.Left 64 64))
         mod 32 = 0
      /\ 32 <= Z.of_N (c_m_of Sample.gpu_right
                         (Sample.C_of BatchLayout.Left 64 64))
      /\ 32 <= Z.of_N (c_n_of Sample.gpu_right
                         (Sample.C_of BatchLayout.Left 64 64)))%Z.
Proof.
  split; [ reflexivity | ].
  split; [ left; reflexivity | ].
  apply (no_bounds_check_means_whole_tiles Sample.serial Sample.dblbuf
           Sample.armpl Sample.ids Sample.plain_macros Sample.gpu_right
           1%Z tt tt 0%Z (Sample.handle_for 0)
           (Sample.C_of BatchLayout.Left 64 64)
           AlphaTag.Yes 32 32 8
           (set_teamSz 8 (set_vecLen 8 (Sample.handle_for 0)))).
  - reflexivity.
  - left; reflexivity.
Defined.

(** Two calls that agree on the identifier and on the extents only: other
    kernels, other scalars, another handle, another batch. *)
Lemma selection_depends_only_on_algo_and_extents_witness :
  kernelAlgoType (Sample.handle_for 0)
  = kernelAlgoType (MoreSamples.debug_handle_for 0)
  /\ c_m_of Sample.gpu_right (Sample.C_of BatchLayout.Left 40 40)
     = c_m_of Sample.gpu_right
         {| C_extent_0 := 7; C_extent_1 := 40; C_extent_2 := 40;
            C_data := 99%nat |}
  /\ c_n_of Sample.gpu_right (Sample.C_of BatchLayout.Left 40 40)
     = c_n_of Sample.gpu_right
         {| C_extent_0 := 7; C_extent_1 := 40; C_extent_2 := 40;
            C_data := 99%nat |}
  /\ map kernel
         (launched
            (fst (run Sample.serial Sample.dblbuf Sample.armpl Sample.ids
                    Sample.plain_macros Sample.gpu_right 1%Z tt tt 0%Z
                    (initial_world (Sample.handle_for 0)
                       (Sample.C_of BatchLayout.Left 40 40)))))
     = map kernel
           (launched
              (fst (run MoreSamples.failing_serial MoreSamples.failing_dblbuf
                      MoreSamples.failing_armpl Sample.ids
                      Sample.plain_macros Sample.gpu_right 2%Z tt tt 5%Z
                      (initial_world (MoreSamples.debug_handle_for 0)
                         {| C_extent_0 := 7; C_extent_1 := 40;
                            C_extent_2 := 40; C_data := 99%nat |})))).
Proof.
  split; [ reflexivity | ].
  split; [ reflexivity | ].
  split; [ reflexivity | ].
  apply (selection_depends_only_on_algo_and_extents
           Sample.serial Sample.dblbuf Sample.armpl
           MoreSamples.failing_serial MoreSamples.failing_dblbuf
           MoreSamples.failing_armpl Sample.ids Sample.plain_macros
           Sample.gpu_right 1%Z 0%Z tt tt 2%Z 5%Z tt tt
           (Sample.handle_for 0) (MoreSamples.debug_handle_for 0)
           (Sample.C_of BatchLayout.Left 40 40)
           {| C_extent_0 := 7; C_extent_1 := 40; C_extent_2 := 40;
              C_data := 99%nat |});
    reflexivity.
Defined.

(** The transposed-A batch-left macro, asked for [LayoutLeft]: it emits a
    [LayoutRight] instantiation all the same. *)
Lemma eti_instantiations_are_legal_witness :
  In (KOKKOSBATCHED_GEMM_T_NT_BLL_ETI_SPEC_INST string string string
        MoreSamples.both_layouts)
     (eti_spec_inst_macros MoreSamples.both_layouts)
  /\ In {| eti_ArgTransA := Trans.Transpose;
           eti_ArgTransB := Trans.NoTranspose;
           eti_ArgBatchSzDim := BatchLayout.Left;
           eti_scalar := "double"; eti_layout := LayoutRight;
           eti_exec_space := "Cuda"; eti_mem_space := "CudaSpace" |}
        (KOKKOSBATCHED_GEMM_T_NT_BLL_ETI_SPEC_INST string string string
           MoreSamples.both_layouts "double" LayoutLeft "Cuda" "CudaSpace")
  /\ static_asserts
       (instantiation_of
          {| eti_ArgTransA := Trans.Transpose;
             eti_ArgTransB := Trans.NoTranspose;
             eti_ArgBatchSzDim := BatchLayout.Left;
             eti_scalar := "double"; eti_layout := LayoutRight;
             eti_exec_space := "Cuda"; eti_mem_space := "CudaSpace" |}
          (OtherSpace 0) false true false false) = true.
Proof.
  split; [ right; right; left; reflexivity | ].
  split; [ left; reflexivity | ].
  apply (eti_instantiations_are_legal MoreSamples.both_layouts
           (KOKKOSBATCHED_GEMM_T_NT_BLL_ETI_SPEC_INST string string string
              MoreSamples.both_layouts)
           "double" LayoutLeft "Cuda" "CudaSpace"
           {| eti_ArgTransA := Trans.Transpose;
              eti_ArgTransB := Trans.NoTranspose;
              eti_ArgBatchSzDim := BatchLayout.Left;
              eti_scalar := "double"; eti_layout := LayoutRight;
              eti_exec_space := "Cuda"; eti_mem_space := "CudaSpace" |}
           (OtherSpace 0) false true false false).
  - right; right; left; reflexivity.
  - left; reflexivity.
Defined.

(** The debug output of a [SQUARE] call with the debug flag set. *)
Example debug_output_of_square_call :
  cout (fst (MoreSamples.call_with Sample.plain_macros Sample.gpu_right
               (MoreSamples.debug_handle_for 0) 40 40))
  = [DebugSpaces false true false false;
     DebugSerialParams ResultsPerThread.Rank0 Algo.Gemm.Unblocked]
  /\ cout (fst (MoreSamples.call_with Sample.plain_macros Sample.simd_host_left
                  (MoreSamples.debug_handle_for 14) 4 4))
     = [].
Proof. split; reflexivity. Qed.

(** Both wrapper specialisations in a library build. *)
Example wrapper_in_library_build :
  BatchedGemmWrapper_run Sample.serial Sample.dblbuf Sample.armpl Sample.ids
    Sample.plain_macros MoreSamples.library_build Sample.gpu_right true
    1%Z tt tt 0%Z
    (initial_world (Sample.handle_for 5) (Sample.C_of BatchLayout.Left 4 8))
  = Some ([EtiSpecialization],
          Sample.call Sample.plain_macros Sample.gpu_right 5 4 8)
  /\ BatchedGemmWrapper_run Sample.serial Sample.dblbuf Sample.armpl Sample.ids
       Sample.plain_macros MoreSamples.library_build Sample.gpu_right false
       1%Z tt tt 0%Z
       (initial_world (Sample.handle_for 5) (Sample.C_of BatchLayout.Left 4 8))
     = Some ([NonEtiSpecialization],
             Sample.call Sample.plain_macros Sample.gpu_right 5 4 8).
Proof. split; reflexivity. Qed.

(** The handle on the tiled path of [SQUARE] (40 x 40 on an accelerator)
    and on the [KK_DBLBUF] path (64 x 64 on the same accelerator). *)
Lemma handle_tuning_only_on_square_tiled_path_witness :
  kernelAlgoType (Sample.handle_for 0) = SQUARE Sample.ids
  /\ c_m_of Sample.gpu_right (Sample.C_of BatchLayout.Left 40 40)
     = c_n_of Sample.gpu_right (Sample.C_of BatchLayout.Left 40 40)
  /\ on_gpu Sample.gpu_right = true
  /\ dblbuf_in_range Sample.gpu_right
       (c_m_of Sample.gpu_right (Sample.C_of BatchLayout.Left 40 40)) = true
  /\ (exists (k : Kernel) (w1 : World nat),
         is_DblBuf k = true
         /\ Sample.call Sample.plain_macros Sample.gpu_right 0 40 40
            = invoke Sample.serial Sample.dblbuf Sample.armpl Sample.gpu_right
                k 1%Z tt tt 0%Z w1
         /\ handle w1
            = {| kernelAlgoType := 0; teamSz := 8; vecLen := 8;
                 enableDebug := false |}
         /\ C w1 = Sample.C_of BatchLayout.Left 40 40
         /\ launched w1 = [])
  /\ ~ (kernelAlgoType (Sample.handle_for 14) = SQUARE Sample.ids
        /\ c_m_of Sample.gpu_right (Sample.C_of BatchLayout.Left 64 64)
           = c_n_of Sample.gpu_right (Sample.C_of BatchLayout.Left 64 64)
        /\ on_gpu Sample.gpu_right = true
        /\ dblbuf_in_range Sample.gpu_right
             (c_m_of Sample.gpu_right (Sample.C_of BatchLayout.Left 64 64))
           = true)
  /\ ((exists (msg : string) (w' : World nat),
          Sample.call Sample.plain_macros Sample.gpu_right 14 64 64
          = (w', Thrown msg)
          /\ handle w' = Sample.handle_for 14
          /\ C w' = Sample.C_of BatchLayout.Left 64 64
          /\ launched w' = [])
      \/ (exists (k : Kernel) (w1 : World nat),
             Sample.call Sample.plain_macros Sample.gpu_right 14 64 64
             = invoke Sample.serial Sample.dblbuf Sample.armpl
                 Sample.gpu_right k 1%Z tt tt 0%Z w1
             /\ handle w1 = Sample.handle_for 14
             /\ C w1 = Sample.C_of BatchLayout.Left 64 64
             /\ launched w1 = []
             /\ (takes_handle k = false ->
                 handle
                   (fst (Sample.call Sample.plain_macros Sample.gpu_right
                           14 64 64))
                 = Sample.handle_for 14))).
Proof.
  split; [ reflexivity | ].
  split; [ reflexivity | ].
  split; [ reflexivity | ].
  split; [ reflexivity | ].
  split.
  { apply (proj1 (handle_tuning_only_on_square_tiled_path Sample.serial
                    Sample.dblbuf Sample.armpl Sample.ids Sample.plain_macros
                    Sample.gpu_right 1%Z tt tt 0%Z (Sample.handle_for 0)
                    (Sample.C_of BatchLayout.Left 40 40)));
      reflexivity. }
  assert (Hnot : ~ (kernelAlgoType (Sample.handle_for 14) = SQUARE Sample.ids
                    /\ c_m_of Sample.gpu_right
                         (Sample.C_of BatchLayout.Left 64 64)
                       = c_n_of Sample.gpu_right
                           (Sample.C_of BatchLayout.Left 64 64)
                    /\ on_gpu Sample.gpu_right = true
                    /\ dblbuf_in_range Sample.gpu_right
                         (c_m_of Sample.gpu_right
                            (Sample.C_of BatchLayout.Left 64 64)) = true)).
  { intros [Ha _]. vm_compute in Ha. discriminate Ha. }
  split; [ exact Hnot | ].
  apply (proj2 (handle_tuning_only_on_square_tiled_path Sample.serial
                  Sample.dblbuf Sample.armpl Sample.ids Sample.plain_macros
                  Sample.gpu_right 1%Z tt tt 0%Z (Sample.handle_for 14)
                  (Sample.C_of BatchLayout.Left 64 64))).
  exact Hnot.
Defined.

(** The stand-in kernel stops short of the caller's handle: after a
    [KK_DBLBUF] call the handle is what the kernel left, one more than the
    caller's [teamSz]; after the fallback of [SQUARE] it is the caller's. *)
Example handle_after_the_call :
  handle (fst (Sample.call Sample.plain_macros Sample.gpu_right 14 64 64))
  = {| kernelAlgoType := 14; teamSz := 1; vecLen := 0; enableDebug := false |}
  /\ handle (fst (Sample.call Sample.plain_macros Sample.gpu_right 0 40 40))
     = {| kernelAlgoType := 0; teamSz := 9; vecLen := 8; enableDebug := false |}
  /\ handle (fst (Sample.call Sample.plain_macros Sample.gpu_right 0 36 36))
     = {| kernelAlgoType := 0; teamSz := 0; vecLen := 0; enableDebug := false |}.
Proof. repeat split. Qed.

(** The unblocked [Transpose] specialisation on the sample view. *)
Lemma gemv_aborts_exactly_when_blocked_witness :
  TeamVectorGemv_invoke Sample.gemv_internal Trans.Transpose
    Algo.Gemv.Unblocked
  = Some (TeamVectorGemv_Transpose_Unblocked_invoke Sample.gemv_internal)
  /\ TeamVectorGemv_Transpose_Unblocked_invoke Sample.gemv_internal
       tt 1%Z Sample.A_view Sample.x_view 0%Z Sample.y_view []
     = Returned [(7%nat, [100; 5; 3; 15; 1; 5]%N)] 0%Z
  /\ ((exists msg,
          TeamVectorGemv_Transpose_Unblocked_invoke Sample.gemv_internal
            tt 1%Z Sample.A_view Sample.x_view 0%Z Sample.y_view []
          = Aborted msg)
      <-> Algo.Gemv.Unblocked = Algo.Gemv.Blocked).
Proof.
  split; [ reflexivity | ].
  pose proof (gemv_aborts_exactly_when_blocked Sample.gemv_internal
                tt 1%Z 0%Z Sample.A_view Sample.x_view Sample.y_view []
                Trans.Transpose Algo.Gemv.Unblocked
                (TeamVectorGemv_Transpose_Unblocked_invoke Sample.gemv_internal)
                eq_refl) as (_ & Hret & Hiff).
  split; [ exact (Hret eq_refl) | exact Hiff ].
Defined.
